(** * requests: a small HTTP(S) client over the Zephyr network stack

    Shallow embedding of
      - the URL parser, [requests_url_fields_get] and [requests_url_parser]
        (log module requests_parser),
      - subsys/net/lib/requests/requests_connect.c: the DNS gate
        ([requests_dns_cb], [requests_dns_lookup]) and the socket setup
        ([requests_connect_setup], [requests_connect]),
      - [requests_init], [requests_setopt] and [requests] (log module
        requests),
      - include/requests/net/lib/requests.h: the context and the options,
    and the properties of the library's specification that concern them.

    Conventions.
      - A [char *] is the list of bytes found in memory from that address
        on; the C string it denotes is the prefix before the first NUL.
      - An array member of a struct is a list whose length is the array's
        capacity.
      - [int] return codes are in [Z]; sizes and offsets are in [nat]; a value
        narrowed to [uint16_t] goes through [to_uint16].
      - Calls into the socket layer are recorded in a trace, and what they
        answer is given by a [host].
      - A store past the end of an array member ends the run with an outcome
        of its own ([OutOfBounds]); the C code goes on from there, over the
        members that follow the array.
      - Where the code reads an object through a pointer to another type, the
        layout is that of a little-endian target with a 32-bit [int]. *)

From Stdlib Require Import ZArith Bool Ascii String List Lia.
Import ListNotations.

Set Implicit Arguments.

(* ================================================================== *)
(** ** Bytes, C strings and the libc routines the library calls *)
(* ================================================================== *)

Module C.

Definition NUL : ascii := Ascii.zero.

Definition is_nul (c : ascii) : bool := Ascii.eqb c NUL.

(** The C string at an address: the bytes before the first NUL. *)
Fixpoint cstr (m : list ascii) : list ascii :=
  match m with
  | [] => []
  | c :: m' => if is_nul c then [] else c :: cstr m'
  end.

Definition strlen (m : list ascii) : nat := length (cstr m).

(** [n] bytes read from address [m + off]; what lies beyond the modelled
    region reads as NUL. *)
Definition read (m : list ascii) (off n : nat) : list ascii :=
  firstn n (skipn off m ++ repeat NUL n).

(** Store of the bytes [bs] at the start of [dst]. The result is longer than
    [dst] exactly when the store runs past the end of [dst]. *)
Definition store (dst bs : list ascii) : list ascii :=
  bs ++ skipn (length bs) dst.

(** [memcpy(dst, src + off, n)] *)
Definition memcpy (dst src : list ascii) (off n : nat) : list ascii :=
  store dst (read src off n).

(** [dst[i] = c] *)
Definition poke (dst : list ascii) (i : nat) (c : ascii) : list ascii :=
  firstn i (dst ++ repeat NUL i) ++ c :: skipn (S i) dst.

(** [strncpy(dst, src, n)]: the string at [src] cut to [n] bytes and padded
    with NULs up to [n] bytes; always writes [n] bytes, and no terminator when
    the string has [n] bytes or more. *)
Definition strncpy (dst src : list ascii) (n : nat) : list ascii :=
  store dst (firstn n (cstr src ++ repeat NUL n)).

(** [memset(dst, 0, sizeof dst)] for an array of [cap] bytes. *)
Definition zeros (cap : nat) : list ascii := repeat NUL cap.

Definition isspace (c : ascii) : bool :=
  let n := nat_of_ascii c in ((9 <=? n) && (n <=? 13)) || (n =? 32).

Definition isdigit (c : ascii) : bool :=
  let n := nat_of_ascii c in (48 <=? n) && (n <=? 57).

Definition digit_val (c : ascii) : Z := Z.of_nat (nat_of_ascii c) - 48.

Fixpoint skip_spaces (s : list ascii) : list ascii :=
  match s with
  | c :: s' => if isspace c then skip_spaces s' else s
  | [] => []
  end.

Fixpoint atoi_digits (acc : Z) (s : list ascii) : Z :=
  match s with
  | c :: s' => if isdigit c then atoi_digits (acc * 10 + digit_val c) s' else acc
  | [] => acc
  end.

(** [atoi]: leading white space, an optional sign, then decimal digits up to
    the first other byte. ([int] overflow is outside the model; the library
    only calls it on at most five bytes.) *)
Definition atoi (m : list ascii) : Z :=
  match skip_spaces (cstr m) with
  | "-"%char :: s => - atoi_digits 0 s
  | "+"%char :: s => atoi_digits 0 s
  | s => atoi_digits 0 s
  end.

(** Conversion to [uint16_t]. *)
Definition to_uint16 (z : Z) : Z := z mod 65536.

(** errno values (Zephyr's errno.h). *)
Definition EAGAIN : Z := 11.
Definition EINVAL : Z := 22.
Definition ECONNABORTED : Z := 113.

End C.

Definition bytes (s : string) : list ascii := list_ascii_of_string s.

(* ================================================================== *)
(** ** Build configuration *)
(* ================================================================== *)

(** The Kconfig symbols and Zephyr macros the sources refer to. Their values
    are fixed when the library is built and are not part of the sources. *)
Record config := {
  CONFIG_NET_SOCKETS_SOCKOPT_TLS : bool;
  CONFIG_REQUESTS_SSL_VERIFYHOST : bool;
  CONFIG_REQUESTS_SSL_VERIFYPEER : bool;
  CONFIG_REQUESTS_HTTP_PORT : Z;
  CONFIG_REQUESTS_HTTPS_PORT : Z;
  CONFIG_REQUESTS_URL_LEN : nat;
  NI_MAXHOST : nat;
  NET_IPV4_MTU : nat
}.

(* ================================================================== *)
(** ** requests.h: the data model *)
(* ================================================================== *)

Inductive requests_options :=
| REQUESTS_HTTPHEADERS
| REQUESTS_POSTFIELDS
| REQUESTS_POSTFIELDS_SIZE
| REQUESTS_PROTOCOL
| REQUESTS_SSL_VERIFYHOST
| REQUESTS_SSL_VERIFYPEER
| REQUESTS_USERPWD
| REQUESTS_WRITEFUNCTION.

(** [enum http_method] of Zephyr's HTTP parser, in its order (HTTP_DELETE is
    0); the methods past HTTP_TRACE are kept by number. *)
Inductive http_method :=
| HTTP_DELETE | HTTP_GET | HTTP_HEAD | HTTP_POST | HTTP_PUT
| HTTP_CONNECT | HTTP_OPTIONS | HTTP_TRACE
| HTTP_METHOD_OTHER (n : nat).

Inductive sa_family_t := AF_UNSPEC | AF_INET | AF_INET6.

Definition is_AF_INET (f : sa_family_t) : bool :=
  match f with AF_INET => true | _ => false end.

(** [struct sockaddr], read as a [struct sockaddr_in]. *)
Record sockaddr := {
  sin_family : sa_family_t;
  sin_port : Z;
  sin_addr : list ascii
}.

Definition sockaddr_zero : sockaddr :=
  {| sin_family := AF_UNSPEC; sin_port := 0; sin_addr := C.zeros 4 |}.

(** A response handler ([http_response_cb_t]) is a function pointer; it is
    kept by name. *)
Definition http_response_cb_t := nat.

Record requests_url_fields := {
  schema : list ascii;    (* uint8_t schema[8] *)
  hostname : list ascii;  (* uint8_t hostname[NI_MAXHOST] *)
  uri : list ascii;       (* uint8_t uri[CONFIG_REQUESTS_URL_LEN] *)
  port : Z;               (* uint16_t *)
  is_ssl : bool
}.

Record requests_ctx := {
  sockfd : Z;
  sa : sockaddr;
  url_fields : requests_url_fields;
  method : http_method;
  cb : option http_response_cb_t;
  recv_buf : list ascii;           (* uint8_t recv_buf[NET_IPV4_MTU] *)
  payload : list ascii;            (* uint8_t payload[NET_IPV4_MTU] *)
  payload_size : Z;                (* uint16_t *)
  protocol : list ascii;           (* uint8_t protocol[16] *)
  headers : option (list string);  (* const char **, NULL when unset *)
  is_ssl_verifyhost : bool;
  is_ssl_verifypeer : bool;
  status_code : Z;
  err : Z
}.

Definition SCHEMA_LEN : nat := 8.
Definition PROTOCOL_LEN : nat := 16.

(** [memset(ctx, 0, sizeof(struct requests_ctx))] *)
Definition memset_ctx (cfg : config) : requests_ctx :=
  {| sockfd := 0;
     sa := sockaddr_zero;
     url_fields :=
       {| schema := C.zeros SCHEMA_LEN;
          hostname := C.zeros (NI_MAXHOST cfg);
          uri := C.zeros (CONFIG_REQUESTS_URL_LEN cfg);
          port := 0;
          is_ssl := false |};
     method := HTTP_DELETE;
     cb := None;
     recv_buf := C.zeros (NET_IPV4_MTU cfg);
     payload := C.zeros (NET_IPV4_MTU cfg);
     payload_size := 0;
     protocol := C.zeros PROTOCOL_LEN;
     headers := None;
     is_ssl_verifyhost := false;
     is_ssl_verifypeer := false;
     status_code := 0;
     err := 0 |}.

(** Field updates. *)
Definition set_schema (u : requests_url_fields) v :=
  {| schema := v; hostname := hostname u; uri := uri u; port := port u;
     is_ssl := is_ssl u |}.
Definition set_hostname (u : requests_url_fields) v :=
  {| schema := schema u; hostname := v; uri := uri u; port := port u;
     is_ssl := is_ssl u |}.
Definition set_uri (u : requests_url_fields) v :=
  {| schema := schema u; hostname := hostname u; uri := v; port := port u;
     is_ssl := is_ssl u |}.
Definition set_port (u : requests_url_fields) v :=
  {| schema := schema u; hostname := hostname u; uri := uri u; port := v;
     is_ssl := is_ssl u |}.

Definition set_url_fields (c : requests_ctx) v :=
  {| sockfd := sockfd c; sa := sa c; url_fields := v; method := method c;
     cb := cb c; recv_buf := recv_buf c; payload := payload c;
     payload_size := payload_size c; protocol := protocol c;
     headers := headers c; is_ssl_verifyhost := is_ssl_verifyhost c;
     is_ssl_verifypeer := is_ssl_verifypeer c; status_code := status_code c;
     err := err c |}.
Definition set_sockfd (c : requests_ctx) v :=
  {| sockfd := v; sa := sa c; url_fields := url_fields c; method := method c;
     cb := cb c; recv_buf := recv_buf c; payload := payload c;
     payload_size := payload_size c; protocol := protocol c;
     headers := headers c; is_ssl_verifyhost := is_ssl_verifyhost c;
     is_ssl_verifypeer := is_ssl_verifypeer c; status_code := status_code c;
     err := err c |}.
Definition set_sa (c : requests_ctx) v :=
  {| sockfd := sockfd c; sa := v; url_fields := url_fields c; method := method c;
     cb := cb c; recv_buf := recv_buf c; payload := payload c;
     payload_size := payload_size c; protocol := protocol c;
     headers := headers c; is_ssl_verifyhost := is_ssl_verifyhost c;
     is_ssl_verifypeer := is_ssl_verifypeer c; status_code := status_code c;
     err := err c |}.
Definition set_cb (c : requests_ctx) v :=
  {| sockfd := sockfd c; sa := sa c; url_fields := url_fields c; method := method c;
     cb := v; recv_buf := recv_buf c; payload := payload c;
     payload_size := payload_size c; protocol := protocol c;
     headers := headers c; is_ssl_verifyhost := is_ssl_verifyhost c;
     is_ssl_verifypeer := is_ssl_verifypeer c; status_code := status_code c;
     err := err c |}.
Definition set_payload (c : requests_ctx) v :=
  {| sockfd := sockfd c; sa := sa c; url_fields := url_fields c; method := method c;
     cb := cb c; recv_buf := recv_buf c; payload := v;
     payload_size := payload_size c; protocol := protocol c;
     headers := headers c; is_ssl_verifyhost := is_ssl_verifyhost c;
     is_ssl_verifypeer := is_ssl_verifypeer c; status_code := status_code c;
     err := err c |}.
Definition set_protocol (c : requests_ctx) v :=
  {| sockfd := sockfd c; sa := sa c; url_fields := url_fields c; method := method c;
     cb := cb c; recv_buf := recv_buf c; payload := payload c;
     payload_size := payload_size c; protocol := v;
     headers := headers c; is_ssl_verifyhost := is_ssl_verifyhost c;
     is_ssl_verifypeer := is_ssl_verifypeer c; status_code := status_code c;
     err := err c |}.
Definition set_headers (c : requests_ctx) v :=
  {| sockfd := sockfd c; sa := sa c; url_fields := url_fields c; method := method c;
     cb := cb c; recv_buf := recv_buf c; payload := payload c;
     payload_size := payload_size c; protocol := protocol c;
     headers := v; is_ssl_verifyhost := is_ssl_verifyhost c;
     is_ssl_verifypeer := is_ssl_verifypeer c; status_code := status_code c;
     err := err c |}.
Definition set_is_ssl_verifyhost (c : requests_ctx) v :=
  {| sockfd := sockfd c; sa := sa c; url_fields := url_fields c; method := method c;
     cb := cb c; recv_buf := recv_buf c; payload := payload c;
     payload_size := payload_size c; protocol := protocol c;
     headers := headers c; is_ssl_verifyhost := v;
     is_ssl_verifypeer := is_ssl_verifypeer c; status_code := status_code c;
     err := err c |}.
Definition set_is_ssl_verifypeer (c : requests_ctx) v :=
  {| sockfd := sockfd c; sa := sa c; url_fields := url_fields c; method := method c;
     cb := cb c; recv_buf := recv_buf c; payload := payload c;
     payload_size := payload_size c; protocol := protocol c;
     headers := headers c; is_ssl_verifyhost := is_ssl_verifyhost c;
     is_ssl_verifypeer := v; status_code := status_code c;
     err := err c |}.
Definition set_status_code (c : requests_ctx) v :=
  {| sockfd := sockfd c; sa := sa c; url_fields := url_fields c; method := method c;
     cb := cb c; recv_buf := recv_buf c; payload := payload c;
     payload_size := payload_size c; protocol := protocol c;
     headers := headers c; is_ssl_verifyhost := is_ssl_verifyhost c;
     is_ssl_verifypeer := is_ssl_verifypeer c; status_code := v;
     err := err c |}.
Definition set_err (c : requests_ctx) v :=
  {| sockfd := sockfd c; sa := sa c; url_fields := url_fields c; method := method c;
     cb := cb c; recv_buf := recv_buf c; payload := payload c;
     payload_size := payload_size c; protocol := protocol c;
     headers := headers c; is_ssl_verifyhost := is_ssl_verifyhost c;
     is_ssl_verifypeer := is_ssl_verifypeer c; status_code := status_code c;
     err := v |}.

(* ================================================================== *)
(** ** The URL parser (log module requests_parser) *)
(* ================================================================== *)

(** [enum http_parser_url_fields] and [struct http_parser_url] of Zephyr's
    URL parser: for each field, where it starts in the URL and how long it
    is ([len = 0] when the URL has no such field). *)
Inductive http_parser_url_fields :=
| UF_SCHEMA | UF_HOST | UF_PORT | UF_PATH | UF_QUERY | UF_FRAGMENT | UF_USERINFO.

Definition is_UF_PATH (f : http_parser_url_fields) : bool :=
  match f with UF_PATH => true | _ => false end.

Record field_data_t := { off : nat; len : nat }.  (* uint16_t off, len *)

Record http_parser_url := {
  field_data : http_parser_url_fields -> field_data_t
}.

(** [http_parser_url_init] *)
Definition http_parser_url_init : http_parser_url :=
  {| field_data := fun _ => {| off := 0; len := 0 |} |}.

(** What [requests_url_fields_get] does to the array it is given. *)
Inductive field_result :=
| FieldErr (ret : Z)                 (* returned [ret < 0], array untouched *)
| FieldSet (field : list ascii)      (* returned 0, array as left *)
| FieldOverrun (wrote cap : nat).    (* stored [wrote] bytes in [cap] *)

(** [requests_url_fields_get(url, purl, url_field, field, field_len)].
    [field] is the destination array; [field_len] is the [uint16_t] the
    caller passes for its size. *)
Definition requests_url_fields_get (url : list ascii) (purl : http_parser_url)
    (url_field : http_parser_url_fields) (field : list ascii) (field_len : Z)
  : field_result :=
  let off := off (field_data purl url_field) in
  let len := len (field_data purl url_field) in
  if (len =? 0) || (field_len <=? Z.of_nat len)%Z then FieldErr (- C.EINVAL)
  else
    let n := if is_UF_PATH url_field then C.strlen url else len in
    (* memcpy(field, url + off, n); field[n] = '\0'; *)
    let field' := C.poke (C.memcpy field url off n) n C.NUL in
    if length field <? length field' then FieldOverrun (length field') (length field)
    else FieldSet field'.

(** How a call that writes into the context ends: it returns, or it has
    stored past the end of one of the context's arrays (after which the C
    program has no defined behaviour). *)
Inductive outcome :=
| Returned (ret : Z) (ctx : requests_ctx)
| OutOfBounds (wrote cap : nat).

Definition PORT_ASCII_LEN : nat := 6.  (* uint8_t port_ascii[6] *)

Section Parser.

Variable cfg : config.

(** Zephyr's [http_parser_parse_url(url, strlen(url), 0, &purl)]: its return
    value and the [purl] it leaves. *)
Variable http_parser_parse_url : list ascii -> Z * http_parser_url.

Definition requests_url_parser (ctx : requests_ctx) (url : list ascii) : outcome :=
  let uf := url_fields ctx in
  let '(ret, purl) := http_parser_parse_url url in
  if (ret <? 0)%Z then Returned ret ctx
  else
  match requests_url_fields_get url purl UF_SCHEMA (schema uf)
          (C.to_uint16 (Z.of_nat (length (schema uf)))) with
  | FieldOverrun w c => OutOfBounds w c
  | FieldErr ret => Returned ret ctx
  | FieldSet schema' =>
  let uf := set_schema uf schema' in
  match requests_url_fields_get url purl UF_HOST (hostname uf)
          (C.to_uint16 (Z.of_nat (length (hostname uf)))) with
  | FieldOverrun w c => OutOfBounds w c
  | FieldErr ret => Returned ret (set_url_fields ctx uf)
  | FieldSet hostname' =>
  let uf := set_hostname uf hostname' in
  match requests_url_fields_get url purl UF_PORT (C.zeros PORT_ASCII_LEN)
          (C.to_uint16 (Z.of_nat PORT_ASCII_LEN)) with
  | FieldOverrun w c => OutOfBounds w c
  | port_r =>
  let uf :=
    match port_r with
    | FieldSet port_ascii => set_port uf (C.to_uint16 (C.atoi port_ascii))
    | _ =>
        if CONFIG_NET_SOCKETS_SOCKOPT_TLS cfg
        then set_port uf (C.to_uint16 (CONFIG_REQUESTS_HTTPS_PORT cfg))
        else set_port uf (C.to_uint16 (CONFIG_REQUESTS_HTTP_PORT cfg))
    end in
  match requests_url_fields_get url purl UF_PATH (uri uf)
          (C.to_uint16 (Z.of_nat (length (uri uf)))) with
  | FieldOverrun w c => OutOfBounds w c
  | FieldErr _ =>
      (* memcpy(uri, "/", sizeof("/")) *)
      let uri' := C.memcpy (uri uf) (bytes "/" ++ [C.NUL]) 0 2 in
      if length (uri uf) <? length uri' then OutOfBounds (length uri') (length (uri uf))
      else Returned 0 (set_url_fields ctx (set_uri uf uri'))
  | FieldSet uri' => Returned 0 (set_url_fields ctx (set_uri uf uri'))
  end end end end.

End Parser.

(* ================================================================== *)
(** ** requests_connect.c: the readiness gate *)
(* ================================================================== *)

Inductive net_event :=
| NET_EVENT_L4_CONNECTED | NET_EVENT_L4_DISCONNECTED | NET_EVENT_OTHER.

Inductive dns_resolve_status :=
| DNS_EAI_INPROGRESS | DNS_EAI_ALLDONE
| DNS_EAI_CANCELED | DNS_EAI_FAIL | DNS_EAI_NODATA
| DNS_EAI_OTHER.

Record dns_addrinfo := {
  ai_addr : sockaddr;
  ai_family : sa_family_t
}.

(** The file's two semaphores, [K_SEM_DEFINE(ipv4_wait, 0, 1)] and
    [K_SEM_DEFINE(dns_wait, 0, 1)], by their counts. They are static: they
    outlive a lookup. *)
Record statics := {
  ipv4_wait : nat;
  dns_wait : nat
}.

Definition K_SEM_LIMIT : nat := 1.

Definition statics_init : statics := {| ipv4_wait := 0; dns_wait := 0 |}.

(** [k_sem_give]: one more, up to the limit. *)
Definition k_sem_give (count : nat) : nat :=
  if count <? K_SEM_LIMIT then S count else count.

Definition net_event_l4_handler (status : net_event) (st : statics) : statics :=
  match status with
  | NET_EVENT_L4_CONNECTED =>
      {| ipv4_wait := k_sem_give (ipv4_wait st); dns_wait := dns_wait st |}
  | NET_EVENT_L4_DISCONNECTED => st
  | _ => st
  end.

(** A world in which the resolver runs its callback: the context passed as
    [user_data] and the semaphores. *)
Definition gate : Type := requests_ctx * statics.

Definition requests_dns_cb (status : dns_resolve_status)
    (info : option dns_addrinfo) (g : gate) : gate :=
  let '(ctx, st) := g in
  let st :=
    match status with
    | DNS_EAI_CANCELED | DNS_EAI_FAIL | DNS_EAI_NODATA => st
    | DNS_EAI_ALLDONE =>
        {| ipv4_wait := ipv4_wait st; dns_wait := k_sem_give (dns_wait st) |}
    | _ => st
    end in
  match info with
  | None => (ctx, st)
  | Some info =>
      if is_AF_INET (ai_family info)
      then (set_err (set_sa ctx (ai_addr info)) 0, st)
      else (set_err ctx (- C.EINVAL), st)
  end.

(** [k_sem_take(sem, timeout)] on the thread that waits, while another
    context delivers the events [evs] one after the other: the take returns 0
    as soon as the count is positive, and -EAGAIN when the events delivered
    before the timeout are used up with the count still 0. *)
Section KSemTake.

Variables (W E : Type).
Variable count : W -> nat.
Variable set_count : W -> nat -> W.
Variable deliver : E -> W -> W.

Fixpoint k_sem_take (evs : list E) (w : W) {struct evs} : Z * W :=
  match count w with
  | S c => (0%Z, set_count w c)
  | O =>
      match evs with
      | [] => ((- C.EAGAIN)%Z, w)
      | e :: evs' => k_sem_take evs' (deliver e w)
      end
  end.

End KSemTake.

(** What the network does during one lookup. *)
Record net_host := {
  l4_events : list net_event;
  dns_get_addr_info_ret : Z;
  dns_events : list (dns_resolve_status * option dns_addrinfo)
}.

Definition take_ipv4_wait (evs : list net_event) (st : statics) : Z * statics :=
  k_sem_take ipv4_wait
    (fun st c => {| ipv4_wait := c; dns_wait := dns_wait st |})
    net_event_l4_handler evs st.

Definition take_dns_wait (evs : list (dns_resolve_status * option dns_addrinfo))
    (g : gate) : Z * gate :=
  k_sem_take (fun g : gate => dns_wait (snd g))
    (fun g c => (fst g, {| ipv4_wait := ipv4_wait (snd g); dns_wait := c |}))
    (fun e => requests_dns_cb (fst e) (snd e)) evs g.

Definition requests_dns_lookup (h : net_host) (g : gate) : Z * gate :=
  let '(ctx, st) := g in
  if C.strlen (hostname (url_fields ctx)) =? 0 then ((- C.EINVAL)%Z, g)
  else
    let '(ret, st) := take_ipv4_wait (l4_events h) st in
    if (ret <? 0)%Z then (ret, (ctx, st))
    else
      let ret := dns_get_addr_info_ret h in
      if (ret <? 0)%Z then (ret, (ctx, st))
      else
        let '(ret, (ctx, st)) := take_dns_wait (dns_events h) (ctx, st) in
        if (ret <? 0)%Z then (ret, (ctx, st))
        else (err ctx, (ctx, st)).

(* ================================================================== *)
(** ** The socket layer *)
(* ================================================================== *)

Inductive ipproto := IPPROTO_TCP | IPPROTO_TLS_1_2.

(** The [SOL_TLS] options the library sets, with the value passed; for
    TLS_PEER_VERIFY, the [int] the socket layer reads at [optval]. *)
Inductive tls_sockopt :=
| TLS_HOSTNAME (optval : list ascii) (optlen : nat)
| TLS_SEC_TAG_LIST (optval : list Z)
| TLS_PEER_VERIFY (optval : Z).

Definition CA_CERTIFICATE_TAG : Z := 1.  (* requests_certs.h *)

(** Conversion to [int] (32 bits, two's complement). *)
Definition to_int32 (z : Z) : Z :=
  let y := (z mod 4294967296)%Z in
  if (y <? 2147483648)%Z then y else (y - 4294967296)%Z.

(** The [int] at the address of [ctx->is_ssl_verifypeer], which the library
    casts to a pointer to [int] and hands to [setsockopt] with
    [sizeof(int)]. In [struct requests_ctx] the [bool]
    is followed by two bytes of padding and by [status_code], so the four
    bytes read are the flag, the padding (zero since the [memset] of
    [requests_init]) and the low byte of [status_code], least significant
    byte first. *)
Definition peer_verify_optval (ctx : requests_ctx) : Z :=
  to_int32 ((if is_ssl_verifypeer ctx then 1 else 0)
            + 16777216 * (status_code ctx mod 256))%Z.

(** [struct http_request], the fields the library fills. *)
Record http_request := {
  req_method : http_method;
  req_url : list ascii;
  req_host : list ascii;
  req_header_fields : option (list string);
  req_protocol : list ascii;
  req_response : option http_response_cb_t;
  req_recv_buf_len : nat;
  req_payload : option (list ascii);   (* NULL when unset *)
  req_payload_len : nat
}.

Inductive syscall :=
| sys_socket (proto : ipproto)
| sys_setsockopt (fd : Z) (opt : tls_sockopt)
| sys_connect (fd : Z) (addr : sockaddr)
| sys_http_client_req (fd : Z) (req : http_request)
| sys_close (fd : Z).

(** What the socket layer answers to each call, and the [errno] it leaves
    when [socket] fails. *)
Record host := {
  answer : syscall -> Z;
  errno : Z
}.

Definition trace := list syscall.

(** Code that calls the socket layer and may [return] early: a step either
    goes on with a value ([inl]) or has returned from the function ([inr]). *)
Definition M (R A : Type) : Type := trace -> (A + R) * trace.

Definition ret {R A} (a : A) : M R A := fun t => (inl a, t).

Definition return_ {R A} (r : R) : M R A := fun t => (inr r, t).

Definition bind {R A B} (m : M R A) (k : A -> M R B) : M R B :=
  fun t =>
    match m t with
    | (inl a, t') => k a t'
    | (inr r, t') => (inr r, t')
    end.

Definition when {R} (b : bool) (m : M R unit) : M R unit :=
  if b then m else ret tt.

(** A whole function body: runs to its [return]. *)
Definition body {R} (m : M R R) : trace -> R * trace :=
  fun t =>
    match m t with
    | (inl r, t') => (r, t')
    | (inr r, t') => (r, t')
    end.

(** A call of a function of the library from another one. *)
Definition invoke {R A} (f : trace -> A * trace) : M R A :=
  fun t => let '(a, t') := f t in (inl a, t').

Declare Scope c_scope.
Delimit Scope c_scope with c.
Notation "x <- m ;; k" := (bind m (fun x => k))
  (at level 61, m at next level, right associativity) : c_scope.
Notation "' p <- m ;; k" := (bind m (fun x => let p := x in k))
  (at level 61, p pattern, m at next level, right associativity) : c_scope.
Notation "m ;; k" := (bind m (fun _ => k))
  (at level 61, right associativity) : c_scope.

Section Sockets.

Variable cfg : config.
Variable h : host.

Definition call {R} (c : syscall) : M R Z :=
  fun t => (inl (answer h c), t ++ [c]).

Local Open Scope c_scope.
Local Open Scope Z_scope.

Definition requests_connect_setup (ctx : requests_ctx)
  : trace -> (Z * requests_ctx) * trace :=
  body (
    fd <- call (sys_socket (if CONFIG_NET_SOCKETS_SOCKOPT_TLS cfg
                            then IPPROTO_TLS_1_2 else IPPROTO_TCP)) ;;
    let ctx := set_sockfd ctx fd in
    when (sockfd ctx <? 0) (return_ (- errno h, ctx)) ;;
    when (CONFIG_NET_SOCKETS_SOCKOPT_TLS cfg) (
      when (is_ssl_verifyhost ctx) (
        r <- call (sys_setsockopt (sockfd ctx)
                     (TLS_HOSTNAME (hostname (url_fields ctx))
                                   (length (hostname (url_fields ctx))))) ;;
        when (r <? 0) (return_ (r, ctx))) ;;
      if is_ssl_verifypeer ctx then
        r <- call (sys_setsockopt (sockfd ctx)
                     (TLS_SEC_TAG_LIST [CA_CERTIFICATE_TAG])) ;;
        when (r <? 0) (return_ (r, ctx))
      else
        r <- call (sys_setsockopt (sockfd ctx)
                     (TLS_PEER_VERIFY (peer_verify_optval ctx))) ;;
        when (r <? 0) (return_ (r, ctx))) ;;
    return_ (0, ctx)).

Definition requests_connect (ctx : requests_ctx)
  : trace -> (Z * requests_ctx) * trace :=
  body (
    ' (r, ctx) <- invoke (requests_connect_setup ctx) ;;
    when (r <? 0) (return_ (- C.ECONNABORTED, ctx)) ;;
    (* sin_port = htons(port): the port, in network byte order *)
    let sa_in := {| sin_family := AF_INET;
                    sin_port := port (url_fields ctx);
                    sin_addr := sin_addr (sa ctx) |} in
    let ctx := set_sa ctx sa_in in
    r <- call (sys_connect (sockfd ctx) sa_in) ;;
    if r <? 0 then
      call (sys_close (sockfd ctx)) ;;
      return_ (- C.ECONNABORTED, set_sockfd ctx (-1))
    else
      return_ (r, ctx)).

End Sockets.

(* ================================================================== *)
(** ** init, setopt and execute (log module requests) *)
(* ================================================================== *)

(** What [void *parameter] points to, by option, as requests.h documents
    it. *)
Definition parameter (option : requests_options) : Type :=
  match option with
  | REQUESTS_HTTPHEADERS => list string
  | REQUESTS_POSTFIELDS => list ascii
  | REQUESTS_POSTFIELDS_SIZE => Z
  | REQUESTS_PROTOCOL => list ascii
  | REQUESTS_SSL_VERIFYHOST => bool
  | REQUESTS_SSL_VERIFYPEER => bool
  | REQUESTS_USERPWD => list ascii
  | REQUESTS_WRITEFUNCTION => http_response_cb_t
  end.

(** [requests_setopt(ctx, option, parameter)]. [sizeof(array) - 1] is taken
    on arrays of at least one byte. *)
Definition requests_setopt (ctx : requests_ctx) (option : requests_options)
  : parameter option -> requests_ctx :=
  match option with
  | REQUESTS_HTTPHEADERS => fun p => set_headers ctx (Some p)
  | REQUESTS_POSTFIELDS => fun p =>
      set_payload ctx (C.strncpy (payload ctx) p (length (payload ctx) - 1))
  | REQUESTS_PROTOCOL => fun p =>
      set_protocol ctx (C.strncpy (protocol ctx) p (length (protocol ctx) - 1))
  | REQUESTS_SSL_VERIFYHOST => fun p => set_is_ssl_verifyhost ctx p
  | REQUESTS_SSL_VERIFYPEER => fun p => set_is_ssl_verifypeer ctx p
  | REQUESTS_WRITEFUNCTION => fun p => set_cb ctx (Some p)
  | _ => fun _ => ctx
  end.

(** One [requests_setopt] call, and a run of them. *)
Definition setopt_call : Type := { option : requests_options & parameter option }.

Definition setopt (option : requests_options) (p : parameter option) : setopt_call :=
  existT _ option p.

Definition requests_setopts (ctx : requests_ctx) (calls : list setopt_call)
  : requests_ctx :=
  fold_left (fun c o => requests_setopt c (projT1 o) (projT2 o)) calls ctx.

Section Init.

Variable cfg : config.
Variable http_parser_parse_url : list ascii -> Z * http_parser_url.
Variable nh : net_host.

(** [requests_init(ctx, url)]; the semaphores are threaded along. *)
Definition requests_init (st : statics) (url : list ascii) : outcome * statics :=
  let ctx := memset_ctx cfg in
  let ctx := if CONFIG_REQUESTS_SSL_VERIFYHOST cfg
             then set_is_ssl_verifyhost ctx true else ctx in
  let ctx := if CONFIG_REQUESTS_SSL_VERIFYPEER cfg
             then set_is_ssl_verifypeer ctx true else ctx in
  match requests_url_parser cfg http_parser_parse_url ctx url with
  | OutOfBounds w c => (OutOfBounds w c, st)
  | Returned ret ctx =>
      if (ret <? 0)%Z then (Returned ret ctx, st)
      else
        let '(ret, (ctx, st)) := requests_dns_lookup nh (ctx, st) in
        if (ret <? 0)%Z then (Returned ret ctx, st)
        else (Returned 0 ctx, st)
  end.

End Init.

Definition http_request_zero : http_request :=
  {| req_method := HTTP_DELETE; req_url := []; req_host := [];
     req_header_fields := None; req_protocol := []; req_response := None;
     req_recv_buf_len := 0; req_payload := None; req_payload_len := 0 |}.

Definition carries_body (m : http_method) : bool :=
  match m with HTTP_POST | HTTP_PUT => true | _ => false end.

(** The request descriptor [requests] fills in before [http_client_req]. *)
Definition build_request (ctx : requests_ctx) (method : http_method) : http_request :=
  let req := http_request_zero in                (* memset(&req, 0, ...) *)
  let req :=
    {| req_method := method;
       req_url := uri (url_fields ctx);
       req_host := hostname (url_fields ctx);
       req_header_fields := headers ctx;
       req_protocol := protocol ctx;
       req_response := cb ctx;
       req_recv_buf_len := length (recv_buf ctx);
       req_payload := req_payload req;
       req_payload_len := req_payload_len req |} in
  if carries_body method then
    {| req_method := req_method req;
       req_url := req_url req;
       req_host := req_host req;
       req_header_fields := req_header_fields req;
       req_protocol := req_protocol req;
       req_response := req_response req;
       req_recv_buf_len := req_recv_buf_len req;
       req_payload := Some (payload ctx);
       req_payload_len := length (payload ctx) |}
  else req.

Section Execute.

Variable cfg : config.
Variable h : host.

Local Open Scope c_scope.
Local Open Scope Z_scope.

(** [requests(ctx, method)]; [ctx] is a pointer, [None] is NULL. What the
    caller's response handler does to the context while [http_client_req]
    runs is the caller's code and is not followed. *)
Definition requests (ctx : option requests_ctx) (method : http_method)
  : trace -> (Z * option requests_ctx) * trace :=
  body (
    match ctx with
    | None => return_ (- C.EINVAL, None)
    | Some ctx =>
        ' (r, ctx) <- invoke (requests_connect cfg h ctx) ;;
        when (r <? 0) (return_ (r, Some ctx)) ;;
        let req := build_request ctx method in
        r <- call h (sys_http_client_req (sockfd ctx) req) ;;
        call h (sys_close (sockfd ctx)) ;;
        return_ (r, Some ctx)
    end).

End Execute.

(** Observations on a trace. *)
Definition is_close_of (fd : Z) (c : syscall) : bool :=
  match c with sys_close fd' => (fd' =? fd)%Z | _ => false end.

Definition closes (fd : Z) (t : trace) : nat :=
  length (filter (is_close_of fd) t).

Definition is_socket (c : syscall) : bool :=
  match c with sys_socket _ => true | _ => false end.

Definition is_connect (c : syscall) : bool :=
  match c with sys_connect _ _ => true | _ => false end.

Definition http_requests (t : trace) : list http_request :=
  flat_map (fun c => match c with sys_http_client_req _ r => [r] | _ => [] end) t.

(* ================================================================== *)
(** ** Sample builds, URLs and hosts *)
(* ================================================================== *)

Definition cfg_http : config :=
  {| CONFIG_NET_SOCKETS_SOCKOPT_TLS := false;
     CONFIG_REQUESTS_SSL_VERIFYHOST := false;
     CONFIG_REQUESTS_SSL_VERIFYPEER := false;
     CONFIG_REQUESTS_HTTP_PORT := 80;
     CONFIG_REQUESTS_HTTPS_PORT := 443;
     CONFIG_REQUESTS_URL_LEN := 64;
     NI_MAXHOST := 64;
     NET_IPV4_MTU := 576 |}.

Definition cfg_tls : config :=
  {| CONFIG_NET_SOCKETS_SOCKOPT_TLS := true;
     CONFIG_REQUESTS_SSL_VERIFYHOST := true;
     CONFIG_REQUESTS_SSL_VERIFYPEER := true;
     CONFIG_REQUESTS_HTTP_PORT := 80;
     CONFIG_REQUESTS_HTTPS_PORT := 443;
     CONFIG_REQUESTS_URL_LEN := 64;
     NI_MAXHOST := 64;
     NET_IPV4_MTU := 576 |}.

(** A [struct http_parser_url] from the (offset, length) of its schema,
    host, port and path. *)
Definition purl_of (s hst p pa : nat * nat) : http_parser_url :=
  {| field_data := fun f =>
       match f with
       | UF_SCHEMA => {| off := fst s; len := snd s |}
       | UF_HOST => {| off := fst hst; len := snd hst |}
       | UF_PORT => {| off := fst p; len := snd p |}
       | UF_PATH => {| off := fst pa; len := snd pa |}
       | _ => {| off := 0; len := 0 |}
       end |}.

(** The bytes of field [f] in [url] according to [purl]. *)
Definition url_field_text (url : list ascii) (purl : http_parser_url)
    (f : http_parser_url_fields) : list ascii :=
  firstn (len (field_data purl f)) (skipn (off (field_data purl f)) url).

(* ================================================================== *)
(** ** Vocabulary of the properties, and sample inputs *)
(* ================================================================== *)

Unset Implicit Arguments.

(** An array of [cap] bytes whose last byte is NUL. *)
Definition terminated (cap : nat) (a : list ascii) : Prop :=
  length a = cap /\ nth (cap - 1) a C.NUL = C.NUL.

(** The state of the two string buffers of a context that [requests_init]
    has zeroed: of their declared size, and closed by a NUL. *)
Definition buffers_ok (cfg : config) (ctx : requests_ctx) : Prop :=
  terminated (NET_IPV4_MTU cfg) (payload ctx) /\
  terminated PROTOCOL_LEN (protocol ctx).

(** The arrays of the context have their declared sizes. *)
Definition arrays_ok (cfg : config) (ctx : requests_ctx) : Prop :=
  length (schema (url_fields ctx)) = SCHEMA_LEN /\
  length (hostname (url_fields ctx)) = NI_MAXHOST cfg /\
  length (uri (url_fields ctx)) = CONFIG_REQUESTS_URL_LEN cfg.

(** The sizes fit the [uint16_t field_len] they are passed in, and the uri
    array has room for the default path. *)
Definition config_ok (cfg : config) : Prop :=
  (Z.of_nat (NI_MAXHOST cfg) < 65536)%Z /\
  2 <= CONFIG_REQUESTS_URL_LEN cfg /\
  (Z.of_nat (CONFIG_REQUESTS_URL_LEN cfg) < 65536)%Z.

(** The URL has a schema and a host, and both fit their arrays. *)
Definition schema_host_fit (cfg : config) (purl : http_parser_url) : Prop :=
  0 < len (field_data purl UF_SCHEMA) < SCHEMA_LEN /\
  0 < len (field_data purl UF_HOST) < NI_MAXHOST cfg.

(** The number a run of decimal digits writes. *)
Definition decimal (ds : list ascii) : Z :=
  fold_left (fun acc c => (acc * 10 + C.digit_val c)%Z) ds 0%Z.

(** The port [requests_url_parser] falls back on. *)
Definition default_port (cfg : config) : Z :=
  C.to_uint16 (if CONFIG_NET_SOCKETS_SOCKOPT_TLS cfg
               then CONFIG_REQUESTS_HTTPS_PORT cfg
               else CONFIG_REQUESTS_HTTP_PORT cfg).

(** The fields a successful parse leaves, by what the URL has. *)
Definition parsed_schema (ctx : requests_ctx) url (purl : http_parser_url) :=
  let d := field_data purl UF_SCHEMA in
  C.read url (off d) (len d) ++ C.NUL :: skipn (S (len d)) (schema (url_fields ctx)).

Definition parsed_hostname (ctx : requests_ctx) url (purl : http_parser_url) :=
  let d := field_data purl UF_HOST in
  C.read url (off d) (len d) ++ C.NUL :: skipn (S (len d)) (hostname (url_fields ctx)).

Definition parsed_port (cfg : config) url (purl : http_parser_url) : Z :=
  let d := field_data purl UF_PORT in
  if (len d =? 0) || (PORT_ASCII_LEN <=? len d) then default_port cfg
  else C.to_uint16 (C.atoi (C.read url (off d) (len d))).

Definition parsed_uri (cfg : config) (ctx : requests_ctx) url (purl : http_parser_url) :=
  let d := field_data purl UF_PATH in
  if (len d =? 0) || (CONFIG_REQUESTS_URL_LEN cfg <=? len d)
  then "/"%char :: C.NUL :: skipn 2 (uri (url_fields ctx))
  else C.read url (off d) (C.strlen url)
         ++ C.NUL :: skipn (S (C.strlen url)) (uri (url_fields ctx)).

Definition parsed_ctx (cfg : config) (ctx : requests_ctx) url purl : requests_ctx :=
  set_url_fields ctx
    {| schema := parsed_schema ctx url purl;
       hostname := parsed_hostname ctx url purl;
       uri := parsed_uri cfg ctx url purl;
       port := parsed_port cfg url purl;
       is_ssl := is_ssl (url_fields ctx) |}.

(** The last step of [requests_url_parser], the path, on the fields [uf] as
    the steps before it leave them. *)
Definition path_stage (ctx : requests_ctx) url purl (uf : requests_url_fields) : outcome :=
  match requests_url_fields_get url purl UF_PATH (uri uf)
          (C.to_uint16 (Z.of_nat (length (uri uf)))) with
  | FieldOverrun w c => OutOfBounds w c
  | FieldErr _ =>
      let uri' := C.memcpy (uri uf) (bytes "/" ++ [C.NUL]) 0 2 in
      if length (uri uf) <? length uri' then OutOfBounds (length uri') (length (uri uf))
      else Returned 0 (set_url_fields ctx (set_uri uf uri'))
  | FieldSet uri' => Returned 0 (set_url_fields ctx (set_uri uf uri'))
  end.

(** Sample URLs, as [http_parser_parse_url] splits them. *)
Definition url_https_example : list ascii :=
  bytes "https://example.com" ++ [C.NUL].
Definition purl_https_example : http_parser_url :=
  purl_of (0, 5) (8, 11) (0, 0) (0, 0).

Definition url_http_example : list ascii :=
  bytes "http://example.com" ++ [C.NUL].
Definition purl_http_example : http_parser_url :=
  purl_of (0, 4) (7, 11) (0, 0) (0, 0).

Definition url_https_8443 : list ascii :=
  bytes "https://example.com:8443/a/b" ++ [C.NUL].
Definition purl_https_8443 : http_parser_url :=
  purl_of (0, 5) (8, 11) (20, 4) (24, 4).

Definition url_long_query : list ascii :=
  bytes "http://h/a?q=" ++ repeat "x"%char 60 ++ [C.NUL].
Definition purl_long_query : http_parser_url :=
  purl_of (0, 4) (7, 1) (0, 0) (8, 2).

Definition url_long_path : list ascii :=
  bytes "http://h/" ++ repeat "p"%char 70 ++ [C.NUL].
Definition purl_long_path : http_parser_url :=
  purl_of (0, 4) (7, 1) (0, 0) (8, 71).

Definition dns_event : Type := dns_resolve_status * option dns_addrinfo.

Definition is_ALLDONE (s : dns_resolve_status) : bool :=
  match s with DNS_EAI_ALLDONE => true | _ => false end.

(** The callbacks up to and including the first all-done, if there is one. *)
Fixpoint until_alldone (evs : list dns_event) : option (list dns_event) :=
  match evs with
  | [] => None
  | e :: evs' =>
      if is_ALLDONE (fst e) then Some [e]
      else option_map (cons e) (until_alldone evs')
  end.

(** The results (candidate addresses) a run of callbacks carries. *)
Definition results (evs : list dns_event) : list dns_addrinfo :=
  flat_map (fun e => match snd e with Some i => [i] | None => [] end) evs.

(** The most recent IPv4 address among results, [d] when there is none. *)
Definition latest_ipv4 (rs : list dns_addrinfo) (d : sockaddr) : sockaddr :=
  last (map ai_addr (filter (fun i => is_AF_INET (ai_family i)) rs)) d.

(** The error the most recent result leaves, [e] when there is none. *)
Definition latest_verdict (rs : list dns_addrinfo) (e : Z) : Z :=
  last (map (fun i => if is_AF_INET (ai_family i) then 0%Z else (- C.EINVAL)%Z) rs) e.

(** Sample addresses and resolver runs. *)
Definition addr_a : sockaddr :=
  {| sin_family := AF_INET; sin_port := 0; sin_addr := bytes "AAAA" |}.
Definition addr_b : sockaddr :=
  {| sin_family := AF_INET; sin_port := 0; sin_addr := bytes "BBBB" |}.
Definition addr_v6 : sockaddr :=
  {| sin_family := AF_INET6; sin_port := 0; sin_addr := bytes "6666" |}.

Definition result_of (a : sockaddr) : dns_event :=
  (DNS_EAI_INPROGRESS, Some {| ai_addr := a; ai_family := sin_family a |}).

Definition alldone : dns_event := (DNS_EAI_ALLDONE, None).

Definition net_up (evs : list dns_event) : net_host :=
  {| l4_events := [NET_EVENT_L4_CONNECTED];
     dns_get_addr_info_ret := 0;
     dns_events := evs |}.

(** A context as [requests_init] has it when it calls the lookup. *)
Definition ctx_example_com : requests_ctx :=
  match requests_url_parser cfg_http (fun _ => (0%Z, purl_http_example))
          (memset_ctx cfg_http) url_http_example with
  | Returned _ ctx => ctx
  | OutOfBounds _ _ => memset_ctx cfg_http
  end.

(** The protocol of the socket the build opens. *)
Definition socket_proto (cfg : config) : ipproto :=
  if CONFIG_NET_SOCKETS_SOCKOPT_TLS cfg then IPPROTO_TLS_1_2 else IPPROTO_TCP.

(** A socket layer that gives descriptor 3 and lets every call succeed. *)
Definition host_ok : host :=
  {| answer := fun c => match c with sys_socket _ => 3%Z | _ => 0%Z end;
     errno := 0 |}.

(** One on which setting TLS_HOSTNAME fails. *)
Definition host_hostname_fails : host :=
  {| answer := fun c =>
       match c with
       | sys_socket _ => 3%Z
       | sys_setsockopt _ (TLS_HOSTNAME _ _) => (-1)%Z
       | _ => 0%Z
       end;
     errno := 0 |}.

(** A caller that posts "hello" and declares its length. *)
Definition ctx_post_hello : requests_ctx :=
  requests_setopts ctx_example_com
    [setopt REQUESTS_PROTOCOL (bytes "HTTP/1.1");
     setopt REQUESTS_POSTFIELDS (bytes "hello");
     setopt REQUESTS_POSTFIELDS_SIZE 5%Z].

(* ================================================================== *)
(** ** The shell commands and the alif sample *)
(* ================================================================== *)

(** [strstr] and [strchr] of libc, by the offset of what they find. *)
Fixpoint is_prefix (p s : list ascii) : bool :=
  match p, s with
  | [], _ => true
  | a :: p', b :: s' => Ascii.eqb a b && is_prefix p' s'
  | _ :: _, [] => false
  end.

Fixpoint find_sub (hay needle : list ascii) : option nat :=
  if is_prefix needle hay then Some 0
  else match hay with
       | [] => None
       | _ :: hay' => option_map S (find_sub hay' needle)
       end.

Definition strstr (m needle : list ascii) : option nat :=
  find_sub (C.cstr m) (C.cstr needle).

Fixpoint find_char (s : list ascii) (c : ascii) : option nat :=
  match s with
  | [] => None
  | a :: s' => if Ascii.eqb a c then Some 0 else option_map S (find_char s' c)
  end.

Definition strchr (m : list ascii) (c : ascii) : option nat :=
  if C.is_nul c then Some (C.strlen m) else find_char (C.cstr m) c.

(** The double quote character (code 34) the parser looks for. *)
Definition DQUOTE : ascii := ascii_of_nat 34.

(** [alif_json_parser(json, key, out, out_size)]: the return value and the
    bytes at [out] afterwards. *)
Definition alif_json_parser (json key out : list ascii) (out_size : nat)
  : Z * list ascii :=
  match strstr json key with
  | None => ((- C.EINVAL)%Z, out)
  | Some i =>
      let start := i + C.strlen key in
      match strchr (skipn start json) DQUOTE with
      | None => ((- C.EINVAL)%Z, out)
      | Some len =>                                 (* end - start *)
          if out_size <? len + 1 then ((- C.EINVAL)%Z, out)
          else
            let out := C.store out (C.zeros out_size) in   (* memset *)
            let out := C.memcpy out json start len in
            let out := C.poke out len C.NUL in
            (0%Z, out)
      end
  end.

(** [struct http_response], the members the handlers read. *)
Record http_response := {
  http_status_code : Z;
  body_frag_start : list ascii;
  body_frag_len : nat
}.

(** What a command writes on the shell. *)
Inductive shell_out :=
| shell_error (fmt : string) (arg : option Z)
| shell_warn (fmt : string) (arg : Z)
| shell_print (text : list ascii).

(** [http_response_handler(rsp, final_data, user_data)] of the shell
    commands; ["%.*s"] prints the fragment up to its length or to a NUL. *)
Definition http_response_handler (rsp : http_response) (ctx : requests_ctx)
  : Z * requests_ctx * list shell_out :=
  let ctx := set_status_code ctx (http_status_code rsp) in
  if (status_code ctx =? 0)%Z then
    (0%Z, ctx, [shell_warn "HTTP Status Code: %d" (status_code ctx)])
  else if 0 <? body_frag_len rsp then
    (0%Z, ctx, [shell_print (C.cstr (firstn (body_frag_len rsp) (body_frag_start rsp)))])
  else (0%Z, ctx, []).

(** The handler called on one response event after the other. *)
Fixpoint http_response_handler_run (rsps : list http_response) (ctx : requests_ctx)
  : list Z * requests_ctx * list shell_out :=
  match rsps with
  | [] => ([], ctx, [])
  | rsp :: rsps' =>
      let '(r, ctx, o) := http_response_handler rsp ctx in
      let '(rs, ctx, os) := http_response_handler_run rsps' ctx in
      (r :: rs, ctx, o ++ os)
  end.

(** The function pointer of [http_response_handler]. *)
Definition HTTP_RESPONSE_HANDLER : http_response_cb_t := 1.

(** How a shell command ends. *)
Inductive cmd_outcome :=
| CmdReturned (ret : Z) (out : list shell_out) (st : statics) (t : trace)
| CmdOutOfBounds (wrote cap : nat).

Section Shell.

Variable cfg : config.
Variable http_parser_parse_url : list ascii -> Z * http_parser_url.
Variable nh : net_host.
Variable h : host.

(** The body the four commands share; they differ in the number of
    arguments they ask for, in their messages, in the method, and in
    whether [argv[2]] is set as REQUESTS_POSTFIELDS. *)
Definition cmd_requests (min_argc : nat) (usage failed : string)
    (method : http_method) (with_body : bool)
    (argv : list (list ascii)) (st : statics) : cmd_outcome :=
  if length argv <? min_argc then
    CmdReturned (- C.EINVAL) [shell_error usage None] st []
  else
    match requests_init cfg http_parser_parse_url nh st (nth 1 argv []) with
    | (OutOfBounds w c, _) => CmdOutOfBounds w c
    | (Returned ret ctx, st) =>
        if (ret <? 0)%Z then
          CmdReturned ret
            [shell_error "Failed to initialize requests (%d)" (Some ret)] st []
        else
          let ctx := requests_setopt ctx REQUESTS_PROTOCOL (bytes "HTTP/1.1") in
          let ctx := requests_setopt ctx REQUESTS_WRITEFUNCTION HTTP_RESPONSE_HANDLER in
          let ctx := if with_body
                     then requests_setopt ctx REQUESTS_POSTFIELDS (nth 2 argv [])
                     else ctx in
          let '((ret, _), t) := requests cfg h (Some ctx) method [] in
          if (ret <? 0)%Z then
            CmdReturned ret [shell_error failed (Some ret)] st t
          else CmdReturned 0 [] st t
    end.

Definition cmd_requests_get :=
  cmd_requests 2 "Usage: requests get <url>" "GET request failed (%d)"
    HTTP_GET false.

Definition cmd_requests_post :=
  cmd_requests 3 "Usage: requests post <url> <body>" "POST request failed (%d)"
    HTTP_POST true.

Definition cmd_requests_put :=
  cmd_requests 3 "Usage: requests put <url> <body>" "PUT request failed (%d)"
    HTTP_PUT true.

Definition cmd_requests_delete :=
  cmd_requests 2 "Usage: requests delete <url>" "DELETE request failed (%d)"
    HTTP_DELETE false.

End Shell.

(** The context [requests_init] hands to the parser: zeroed, with the two
    verification flags as the build sets them. *)
Definition requests_init_ctx (cfg : config) : requests_ctx :=
  let ctx := memset_ctx cfg in
  let ctx := if CONFIG_REQUESTS_SSL_VERIFYHOST cfg
             then set_is_ssl_verifyhost ctx true else ctx in
  if CONFIG_REQUESTS_SSL_VERIFYPEER cfg
  then set_is_ssl_verifypeer ctx true else ctx.

(** A string between double quotes. *)
Definition quoted (s : string) : list ascii := DQUOTE :: bytes s ++ [DQUOTE].

(** PROMPT_KEY of the alif sample, and an answer of the service. *)
Definition PROMPT_KEY : list ascii := quoted "content" ++ bytes ":" ++ [DQUOTE].

Definition json_answer : list ascii :=
  bytes "{" ++ quoted "role" ++ bytes ":" ++ quoted "assistant" ++ bytes ","
    ++ quoted "content" ++ bytes ":" ++ quoted "Hello" ++ bytes "}" ++ [C.NUL].

Definition json_unclosed : list ascii :=
  bytes "{" ++ quoted "content" ++ bytes ":" ++ DQUOTE :: bytes "Hello" ++ [C.NUL].


(** The URL does not make the parser store past the uri array: if it has a
    path that fits the array, the whole URL is shorter than the array. *)
Definition uri_in_bounds (cfg : config) (url : list ascii) (purl : http_parser_url)
  : Prop :=
  0 < len (field_data purl UF_PATH) < CONFIG_REQUESTS_URL_LEN cfg ->
  C.strlen url < CONFIG_REQUESTS_URL_LEN cfg.

(** More sample inputs. *)
Definition url_long_port : list ascii :=
  bytes "http://h:000081/" ++ [C.NUL].
Definition purl_long_port : http_parser_url :=
  purl_of (0, 4) (7, 1) (9, 6) (15, 1).

Definition url_with_query : list ascii :=
  bytes "http://h/a/b?x=1#top" ++ [C.NUL].
Definition purl_with_query : http_parser_url :=
  purl_of (0, 4) (7, 1) (0, 0) (8, 4).

Definition purl_long_schema : http_parser_url :=
  purl_of (0, 9) (12, 1) (0, 0) (0, 0).

Definition purl_no_host : http_parser_url :=
  purl_of (0, 4) (0, 0) (0, 0) (0, 0).

Definition is_setsockopt (c : syscall) : bool :=
  match c with sys_setsockopt _ _ => true | _ => false end.

Definition is_L4_CONNECTED (e : net_event) : bool :=
  match e with NET_EVENT_L4_CONNECTED => true | _ => false end.

(** A socket layer on which [socket] fails with ENOMEM. *)
Definition host_no_socket : host :=
  {| answer := fun c => match c with sys_socket _ => (-1)%Z | _ => 0%Z end;
     errno := 12 |}.

(** One on which [connect] is refused. *)
Definition host_connect_refused : host :=
  {| answer := fun c =>
       match c with
       | sys_socket _ => 3%Z
       | sys_connect _ _ => (-1)%Z
       | _ => 0%Z
       end;
     errno := 111 |}.

(* ================================================================== *)
(** ** Proof steps *)
(* ================================================================== *)

Ltac by_computation :=
  first [ reflexivity
        | vm_compute; reflexivity
        | cbn; lia
        | vm_compute; lia
        | vm_compute; repeat constructor ].

Ltac run_c :=
  unfold requests, requests_connect, requests_connect_setup,
    body, invoke, bind, call, when, ret, return_;
  cbn [fst snd sockfd set_sockfd set_sa is_ssl_verifyhost is_ssl_verifypeer
       url_fields app].

Ltac case_conditions :=
  repeat match goal with
         | |- context [if ?b then _ else _] =>
             let E := fresh "E" in destruct b eqn:E
         | H : (?x <? 0)%Z = true |- _ => apply Z.ltb_lt in H
         | H : (?x <? 0)%Z = false |- _ => apply Z.ltb_ge in H
         end.

(* ================================================================== *)
(** ** Facts about the memory routines *)
(* ================================================================== *)


Module CFacts.
Import C.

Lemma read_length m o n : length (read m o n) = n.
Proof.
  unfold read. rewrite length_firstn, length_app, repeat_length. lia.
Qed.

Lemma store_length dst bs :
  length (store dst bs) = Nat.max (length bs) (length dst).
Proof.
  unfold store. rewrite length_app, length_skipn. lia.
Qed.

Lemma poke_store dst bs c :
  poke (store dst bs) (length bs) c = bs ++ c :: skipn (S (length bs)) dst.
Proof.
  unfold poke, store.
  rewrite <- app_assoc, firstn_app, firstn_all, Nat.sub_diag, firstn_O, app_nil_r.
  f_equal. f_equal.
  rewrite skipn_app.
  replace (S (length bs) - length bs) with 1 by lia.
  rewrite (skipn_all2 bs) by lia.
  rewrite skipn_skipn. reflexivity.
Qed.

Lemma cstr_app_nul a b : cstr (a ++ NUL :: b) = cstr a.
Proof.
  induction a as [|c a IH]; simpl.
  - reflexivity.
  - destruct (is_nul c); [reflexivity | now rewrite IH].
Qed.

Lemma cstr_no_nul m : Forall (fun c => is_nul c = false) (cstr m).
Proof.
  induction m as [|c m IH]; simpl.
  - constructor.
  - destruct (is_nul c) eqn:E; [constructor | now constructor].
Qed.

Lemma cstr_clean a : Forall (fun c => is_nul c = false) a -> cstr a = a.
Proof.
  induction 1 as [|c a Hc _ IH]; simpl.
  - reflexivity.
  - now rewrite Hc, IH.
Qed.

Lemma cstr_clean_app_nul a b :
  Forall (fun c => is_nul c = false) a -> cstr (a ++ NUL :: b) = a.
Proof.
  intros H. rewrite cstr_app_nul. now apply cstr_clean.
Qed.

Lemma cstr_length_le m : length (cstr m) <= length m.
Proof.
  induction m as [|c m IH]; simpl.
  - lia.
  - destruct (is_nul c); simpl; lia.
Qed.

Lemma firstn_zeros k n : firstn k (repeat NUL n) = repeat NUL (Nat.min k n).
Proof.
  revert n. induction k as [|k IH]; intros [|n]; simpl; try reflexivity.
  now rewrite IH.
Qed.

(** What [strncpy] leaves in an array whose last byte is NUL, when told to
    write all of it but that byte. *)
Lemma strncpy_terminated dst src :
  0 < length dst ->
  nth (length dst - 1) dst NUL = NUL ->
  strncpy dst src (length dst - 1)
  = firstn (length dst - 1) (cstr src ++ repeat NUL (length dst - 1)) ++ [NUL].
Proof.
  intros Hpos Hlast. unfold strncpy, store.
  set (n := length dst - 1).
  assert (Hlen : length (firstn n (cstr src ++ repeat NUL n)) = n).
  { rewrite length_firstn, length_app, repeat_length. lia. }
  rewrite Hlen. f_equal.
  assert (Hs : length (skipn n dst) = 1) by (rewrite length_skipn; lia).
  destruct (skipn n dst) as [|x [|y l]] eqn:E; simpl in Hs; try lia.
  f_equal.
  rewrite <- Hlast. fold n.
  rewrite <- (firstn_skipn n dst) at 1. rewrite E.
  rewrite app_nth2; rewrite length_firstn; [|lia].
  replace (n - Nat.min n (length dst)) with 0 by lia. reflexivity.
Qed.

Lemma strncpy_cstr dst src :
  0 < length dst ->
  nth (length dst - 1) dst NUL = NUL ->
  cstr (strncpy dst src (length dst - 1)) = firstn (length dst - 1) (cstr src).
Proof.
  intros Hpos Hlast. rewrite strncpy_terminated by assumption.
  set (n := length dst - 1).
  destruct (Nat.le_gt_cases n (length (cstr src))) as [Hge|Hlt].
  - rewrite firstn_app. replace (n - length (cstr src)) with 0 by lia.
    simpl. rewrite app_nil_r.
    apply cstr_clean_app_nul.
    generalize (cstr_no_nul src). intros H.
    rewrite <- (firstn_skipn n (cstr src)) in H.
    apply Forall_app in H. tauto.
  - rewrite firstn_app, (firstn_all2 (cstr src)) by lia.
    rewrite firstn_zeros, <- app_assoc, <- repeat_cons.
    apply cstr_clean_app_nul, cstr_no_nul.
Qed.

Lemma strncpy_length dst src :
  length (strncpy dst src (length dst - 1)) = length dst.
Proof.
  unfold strncpy. rewrite store_length, length_firstn, length_app, repeat_length. lia.
Qed.

Lemma strncpy_last dst src :
  0 < length dst ->
  nth (length dst - 1) dst NUL = NUL ->
  nth (length dst - 1) (strncpy dst src (length dst - 1)) NUL = NUL.
Proof.
  intros Hpos Hlast. rewrite strncpy_terminated by assumption.
  rewrite app_nth2; rewrite length_firstn, length_app, repeat_length; [|lia].
  replace (length dst - 1 - _) with 0 by lia. reflexivity.
Qed.

Lemma zeros_length n : length (zeros n) = n.
Proof. apply repeat_length. Qed.

Lemma zeros_nth n i : nth i (zeros n) NUL = NUL.
Proof.
  unfold zeros. revert i. induction n; intros [|i]; simpl; auto.
Qed.

End CFacts.

(* ================================================================== *)
(** ** The option store ([requests_setopt]) *)
(* ================================================================== *)

Lemma memset_ctx_buffers_ok cfg : buffers_ok cfg (memset_ctx cfg).
Proof.
  unfold buffers_ok, terminated; simpl.
  rewrite !CFacts.zeros_length.
  repeat split; apply CFacts.zeros_nth.
Qed.

Lemma strncpy_terminated_inv cap a s :
  0 < cap -> terminated cap a ->
  terminated cap (C.strncpy a s (length a - 1)).
Proof.
  intros Hpos [Hlen Hlast]. split.
  - now rewrite CFacts.strncpy_length.
  - rewrite <- Hlen. apply CFacts.strncpy_last; rewrite Hlen; assumption.
Qed.

Lemma requests_setopt_buffers_ok cfg ctx o (p : parameter o) :
  0 < NET_IPV4_MTU cfg ->
  buffers_ok cfg ctx -> buffers_ok cfg (requests_setopt ctx o p).
Proof.
  intros Hpos [Hp Hq].
  destruct o; simpl; unfold buffers_ok; simpl; split; try assumption.
  - now apply strncpy_terminated_inv.
  - apply strncpy_terminated_inv; [unfold PROTOCOL_LEN; lia | assumption].
Qed.

(** X20. Any run of [requests_setopt] calls keeps the two string buffers
    of the context at their size and closed by a NUL. *)
Lemma requests_setopts_buffers_ok cfg calls : forall ctx,
  0 < NET_IPV4_MTU cfg ->
  buffers_ok cfg ctx -> buffers_ok cfg (requests_setopts ctx calls).
Proof.
  unfold requests_setopts.
  induction calls as [|[o p] calls IH]; intros ctx Hpos Hok; simpl.
  - assumption.
  - apply IH; [assumption|]. now apply requests_setopt_buffers_ok.
Qed.

(** C10. [requests_setopt] with REQUESTS_POSTFIELDS or REQUESTS_PROTOCOL on a
    context whose buffers are as [requests_init] and earlier calls leave
    them: the buffer keeps its size (nothing is written past it), its last
    byte stays NUL, and the string it then holds is the input cut to
    capacity - 1 bytes; there is no error to report, the call returns the
    context only. *)
Theorem requests_setopt_string_truncates cfg ctx (s : list ascii) :
  0 < NET_IPV4_MTU cfg ->
  buffers_ok cfg ctx ->
  let p := payload (requests_setopt ctx REQUESTS_POSTFIELDS s) in
  let q := protocol (requests_setopt ctx REQUESTS_PROTOCOL s) in
  (length p = NET_IPV4_MTU cfg /\
   nth (NET_IPV4_MTU cfg - 1) p C.NUL = C.NUL /\
   C.cstr p = firstn (NET_IPV4_MTU cfg - 1) (C.cstr s) /\
   C.strlen p <= NET_IPV4_MTU cfg - 1) /\
  (length q = PROTOCOL_LEN /\
   nth (PROTOCOL_LEN - 1) q C.NUL = C.NUL /\
   C.cstr q = firstn (PROTOCOL_LEN - 1) (C.cstr s) /\
   C.strlen q <= PROTOCOL_LEN - 1).
Proof.
  intros Hpos [[Hpl Hpn] [Hql Hqn]].
  cbv zeta. cbn [requests_setopt set_payload set_protocol payload protocol].
  assert (Hq16 : 0 < PROTOCOL_LEN) by (unfold PROTOCOL_LEN; lia).
  split.
  - assert (Hc : C.cstr (C.strncpy (payload ctx) s (length (payload ctx) - 1))
                 = firstn (NET_IPV4_MTU cfg - 1) (C.cstr s)).
    { rewrite <- Hpl. apply CFacts.strncpy_cstr; rewrite Hpl; assumption. }
    repeat split.
    + now rewrite CFacts.strncpy_length.
    + rewrite <- Hpl. apply CFacts.strncpy_last; rewrite Hpl; assumption.
    + exact Hc.
    + unfold C.strlen. rewrite Hc, length_firstn. lia.
  - assert (Hc : C.cstr (C.strncpy (protocol ctx) s (length (protocol ctx) - 1))
                 = firstn (PROTOCOL_LEN - 1) (C.cstr s)).
    { rewrite <- Hql. apply CFacts.strncpy_cstr; rewrite Hql; assumption. }
    repeat split.
    + now rewrite CFacts.strncpy_length.
    + rewrite <- Hql. apply CFacts.strncpy_last; rewrite Hql; assumption.
    + exact Hc.
    + unfold C.strlen. rewrite Hc, length_firstn. lia.
Qed.

Lemma requests_setopt_string_truncates_witness :
  (0 < NET_IPV4_MTU cfg_http /\ buffers_ok cfg_http (memset_ctx cfg_http)) /\
  let s := bytes "HTTP/1.1 and fifteen more" in
  let p := payload (requests_setopt (memset_ctx cfg_http) REQUESTS_POSTFIELDS s) in
  let q := protocol (requests_setopt (memset_ctx cfg_http) REQUESTS_PROTOCOL s) in
  (length p = NET_IPV4_MTU cfg_http /\
   nth (NET_IPV4_MTU cfg_http - 1) p C.NUL = C.NUL /\
   C.cstr p = firstn (NET_IPV4_MTU cfg_http - 1) (C.cstr s) /\
   C.strlen p <= NET_IPV4_MTU cfg_http - 1) /\
  (length q = PROTOCOL_LEN /\
   nth (PROTOCOL_LEN - 1) q C.NUL = C.NUL /\
   C.cstr q = firstn (PROTOCOL_LEN - 1) (C.cstr s) /\
   C.strlen q <= PROTOCOL_LEN - 1).
Proof.
  assert (Hpos : 0 < NET_IPV4_MTU cfg_http) by (cbn; lia).
  split; [split; [exact Hpos | apply memset_ctx_buffers_ok]|].
  apply (requests_setopt_string_truncates cfg_http (memset_ctx cfg_http)
           (bytes "HTTP/1.1 and fifteen more") Hpos
           (memset_ctx_buffers_ok cfg_http)).
Defined.

(** A protocol string of 25 bytes is cut to 15, without notice. *)
Example requests_setopt_protocol_cut :
  C.cstr (protocol (requests_setopt (memset_ctx cfg_http) REQUESTS_PROTOCOL
                      (bytes "HTTP/1.1 and fifteen more")))
  = bytes "HTTP/1.1 and fi".
Proof. reflexivity. Qed.

(** The six options [requests_setopt] has a case for store what they are
    given. *)
Lemma requests_setopt_stores ctx :
  (forall p, headers (requests_setopt ctx REQUESTS_HTTPHEADERS p) = Some p) /\
  (forall p, is_ssl_verifyhost (requests_setopt ctx REQUESTS_SSL_VERIFYHOST p) = p) /\
  (forall p, is_ssl_verifypeer (requests_setopt ctx REQUESTS_SSL_VERIFYPEER p) = p) /\
  (forall p, cb (requests_setopt ctx REQUESTS_WRITEFUNCTION p) = Some p) /\
  (forall p, payload (requests_setopt ctx REQUESTS_POSTFIELDS p)
             = C.strncpy (payload ctx) p (length (payload ctx) - 1)) /\
  (forall p, protocol (requests_setopt ctx REQUESTS_PROTOCOL p)
             = C.strncpy (protocol ctx) p (length (protocol ctx) - 1)).
Proof. repeat split. Qed.

(** C5. REQUESTS_POSTFIELDS_SIZE (and REQUESTS_USERPWD) fall in the
    [default:] case of [requests_setopt]: the call leaves the whole context,
    and so [payload_size], as it was. After [requests_init],
    [requests_setopt(ctx, REQUESTS_POSTFIELDS_SIZE, 27)] leaves
    [payload_size] at 0. *)
Theorem requests_setopt_postfields_size_ignored :
  (forall ctx (n : Z), requests_setopt ctx REQUESTS_POSTFIELDS_SIZE n = ctx) /\
  (forall ctx (s : list ascii), requests_setopt ctx REQUESTS_USERPWD s = ctx) /\
  payload_size (requests_setopt (memset_ctx cfg_http)
                  REQUESTS_POSTFIELDS_SIZE 27%Z) = 0%Z.
Proof. repeat split. Qed.

(* ================================================================== *)
(** ** The URL parser *)
(* ================================================================== *)

Lemma requests_url_fields_get_eq url purl f field field_len :
  let o := off (field_data purl f) in
  let l := len (field_data purl f) in
  let n := if is_UF_PATH f then C.strlen url else l in
  requests_url_fields_get url purl f field field_len =
    if (l =? 0) || (field_len <=? Z.of_nat l)%Z then FieldErr (- C.EINVAL)
    else if length field <=? n then FieldOverrun (S n) (length field)
    else FieldSet (C.read url o n ++ C.NUL :: skipn (S n) field).
Proof.
  intros o l n. unfold requests_url_fields_get. fold o l n.
  destruct ((l =? 0) || (field_len <=? Z.of_nat l)%Z); [reflexivity|].
  unfold C.memcpy.
  pose proof (CFacts.poke_store field (C.read url o n) C.NUL) as P.
  rewrite CFacts.read_length in P. rewrite !P.
  rewrite length_app, CFacts.read_length. cbn [length]. rewrite length_skipn.
  destruct (Nat.leb_spec (length field) n) as [Hle|Hgt].
  - replace (length field <? n + S (length field - S n)) with true
      by (symmetry; apply Nat.ltb_lt; lia).
    f_equal. lia.
  - replace (length field <? n + S (length field - S n)) with false
      by (symmetry; apply Nat.ltb_ge; lia).
    reflexivity.
Qed.

Lemma to_uint16_small n :
  (Z.of_nat n < 65536)%Z -> C.to_uint16 (Z.of_nat n) = Z.of_nat n.
Proof. intros H. unfold C.to_uint16. apply Z.mod_small. lia. Qed.

Lemma atoi_app_nul a b : C.atoi (a ++ C.NUL :: b) = C.atoi a.
Proof. unfold C.atoi. now rewrite CFacts.cstr_app_nul. Qed.

Lemma isdigit_not_nul c : C.isdigit c = true -> C.is_nul c = false.
Proof.
  unfold C.isdigit, C.is_nul. intros H.
  destruct (Ascii.eqb_spec c C.NUL) as [->|]; [discriminate H | reflexivity].
Qed.

Lemma atoi_digits_decimal ds : forall acc,
  Forall (fun c => C.isdigit c = true) ds ->
  C.atoi_digits acc ds = fold_left (fun a c => (a * 10 + C.digit_val c)%Z) ds acc.
Proof.
  induction ds as [|c ds IH]; intros acc H; simpl.
  - reflexivity.
  - inversion H; subst. rewrite H2. now apply IH.
Qed.

Lemma isdigit_cases c :
  C.isdigit c = true -> C.isspace c = false /\ c <> "-"%char /\ c <> "+"%char.
Proof.
  unfold C.isdigit, C.isspace. cbv zeta. intros H.
  apply andb_prop in H. destruct H as [H1 H2].
  apply Nat.leb_le in H1. apply Nat.leb_le in H2.
  repeat split.
  - apply orb_false_iff. split.
    + apply andb_false_iff. right. apply Nat.leb_gt. lia.
    + apply Nat.eqb_neq. lia.
  - intros ->. cbn in H1. lia.
  - intros ->. cbn in H1. lia.
Qed.

(** On a run of digits, [atoi] is the decimal value. *)
Lemma atoi_decimal ds :
  Forall (fun c => C.isdigit c = true) ds -> C.atoi ds = decimal ds.
Proof.
  intros H. unfold C.atoi, decimal.
  rewrite CFacts.cstr_clean
    by (eapply Forall_impl; [|exact H]; apply isdigit_not_nul).
  destruct ds as [|c ds]; [reflexivity|].
  inversion H as [|? ? Hc Hds]; subst.
  destruct (isdigit_cases c Hc) as (Hs & Hm & Hp).
  cbn [C.skip_spaces]. rewrite Hs.
  rewrite <- (atoi_digits_decimal _ 0 H).
  destruct c as [[] [] [] [] [] [] [] []]; try reflexivity;
    solve [exfalso; apply Hm; reflexivity | exfalso; apply Hp; reflexivity].
Qed.

Lemma read_in_bounds url o l :
  o + l <= length url -> C.read url o l = firstn l (skipn o url).
Proof.
  intros H. unfold C.read. rewrite firstn_app, length_skipn.
  replace (l - (length url - o)) with 0 by lia.
  simpl. apply app_nil_r.
Qed.

(** [requests_url_fields_get] called on an array with its own size. *)
Lemma requests_url_fields_get_array url purl f field :
  (Z.of_nat (length field) < 65536)%Z ->
  let o := off (field_data purl f) in
  let l := len (field_data purl f) in
  let n := if is_UF_PATH f then C.strlen url else l in
  requests_url_fields_get url purl f field (C.to_uint16 (Z.of_nat (length field))) =
    if (l =? 0) || (length field <=? l) then FieldErr (- C.EINVAL)
    else if length field <=? n then FieldOverrun (S n) (length field)
    else FieldSet (C.read url o n ++ C.NUL :: skipn (S n) field).
Proof.
  intros Hsmall o l n.
  rewrite requests_url_fields_get_eq. fold o l n.
  rewrite to_uint16_small by assumption.
  replace (Z.of_nat (length field) <=? Z.of_nat l)%Z with (length field <=? l).
  - reflexivity.
  - destruct (Nat.leb_spec (length field) l);
      [symmetry; apply Z.leb_le | symmetry; apply Z.leb_gt]; lia.
Qed.

Lemma path_stage_eq cfg ctx url purl uf :
  config_ok cfg ->
  length (uri uf) = CONFIG_REQUESTS_URL_LEN cfg ->
  path_stage ctx url purl uf =
    let d := field_data purl UF_PATH in
    if (len d =? 0) || (CONFIG_REQUESTS_URL_LEN cfg <=? len d)
    then Returned 0 (set_url_fields ctx
                       (set_uri uf ("/"%char :: C.NUL :: skipn 2 (uri uf))))
    else if CONFIG_REQUESTS_URL_LEN cfg <=? C.strlen url
    then OutOfBounds (S (C.strlen url)) (CONFIG_REQUESTS_URL_LEN cfg)
    else Returned 0 (set_url_fields ctx
                       (set_uri uf (C.read url (off d) (C.strlen url)
                                      ++ C.NUL :: skipn (S (C.strlen url)) (uri uf)))).
Proof.
  intros (Hh & Hu2 & Hu) Hlu. unfold path_stage.
  rewrite requests_url_fields_get_array by (rewrite Hlu; lia).
  cbn [is_UF_PATH]. rewrite Hlu. cbv zeta.
  destruct ((len (field_data purl UF_PATH) =? 0)
            || (CONFIG_REQUESTS_URL_LEN cfg <=? len (field_data purl UF_PATH))).
  - assert (E : C.memcpy (uri uf) (bytes "/" ++ [C.NUL]) 0 2
                = "/"%char :: C.NUL :: skipn 2 (uri uf)) by reflexivity.
    rewrite E. cbn [length]. rewrite length_skipn, Hlu.
    replace (CONFIG_REQUESTS_URL_LEN cfg <? S (S (CONFIG_REQUESTS_URL_LEN cfg - 2)))
      with false by (symmetry; apply Nat.ltb_ge; lia).
    reflexivity.
  - destruct (CONFIG_REQUESTS_URL_LEN cfg <=? C.strlen url); reflexivity.
Qed.

(** [requests_url_parser] on a URL whose schema and host fit: it stores past
    the uri array when the URL has a path that fits but is itself as long as
    the array or longer, and returns 0 with the fields above otherwise. *)
Lemma requests_url_parser_eq cfg parse ctx url r purl :
  config_ok cfg -> arrays_ok cfg ctx ->
  parse url = (r, purl) -> (0 <= r)%Z ->
  schema_host_fit cfg purl ->
  requests_url_parser cfg parse ctx url =
    let lp := len (field_data purl UF_PATH) in
    if negb ((lp =? 0) || (CONFIG_REQUESTS_URL_LEN cfg <=? lp))
       && (CONFIG_REQUESTS_URL_LEN cfg <=? C.strlen url)
    then OutOfBounds (S (C.strlen url)) (CONFIG_REQUESTS_URL_LEN cfg)
    else Returned 0 (parsed_ctx cfg ctx url purl).
Proof.
  intros Hcfg (Hls & Hlh & Hlu) Hparse Hr ((Hs0 & Hs1) & (Hh0 & Hh1)).
  pose proof Hcfg as (Hh & Hu2 & Hu).
  unfold requests_url_parser. rewrite Hparse.
  replace (r <? 0)%Z with false by (symmetry; apply Z.ltb_ge; lia).
  (* schema *)
  rewrite requests_url_fields_get_array by (rewrite Hls; unfold SCHEMA_LEN; lia).
  cbn [is_UF_PATH]. rewrite Hls.
  replace (len (field_data purl UF_SCHEMA) =? 0) with false
    by (symmetry; apply Nat.eqb_neq; lia).
  replace (SCHEMA_LEN <=? len (field_data purl UF_SCHEMA)) with false
    by (symmetry; apply Nat.leb_gt; lia).
  cbn [orb].
  (* hostname *)
  cbn [set_schema hostname].
  rewrite requests_url_fields_get_array by (rewrite Hlh; lia).
  cbn [is_UF_PATH]. rewrite Hlh.
  replace (len (field_data purl UF_HOST) =? 0) with false
    by (symmetry; apply Nat.eqb_neq; lia).
  replace (NI_MAXHOST cfg <=? len (field_data purl UF_HOST)) with false
    by (symmetry; apply Nat.leb_gt; lia).
  cbn [orb].
  (* port *)
  rewrite <- (CFacts.zeros_length PORT_ASCII_LEN) at 2.
  rewrite requests_url_fields_get_array
    by (rewrite CFacts.zeros_length; unfold PORT_ASCII_LEN; lia).
  cbn [is_UF_PATH]. rewrite CFacts.zeros_length.
  unfold parsed_ctx, parsed_uri, parsed_port, default_port.
  set (lp := len (field_data purl UF_PATH)).
  set (lq := len (field_data purl UF_PORT)).
  destruct ((lq =? 0) || (PORT_ASCII_LEN <=? lq)) eqn:Eq.
  - (* no usable port: the default *)
    match goal with
    | |- _ = ?rhs =>
        change (path_stage ctx url purl
                  (if CONFIG_NET_SOCKETS_SOCKOPT_TLS cfg
                   then set_port (set_hostname (set_schema (url_fields ctx)
                           (parsed_schema ctx url purl)) (parsed_hostname ctx url purl))
                          (C.to_uint16 (CONFIG_REQUESTS_HTTPS_PORT cfg))
                   else set_port (set_hostname (set_schema (url_fields ctx)
                           (parsed_schema ctx url purl)) (parsed_hostname ctx url purl))
                          (C.to_uint16 (CONFIG_REQUESTS_HTTP_PORT cfg))) = rhs)
    end.
    rewrite (@path_stage_eq cfg) by (destruct (CONFIG_NET_SOCKETS_SOCKOPT_TLS cfg); assumption).
    cbv zeta. fold lp.
    destruct ((lp =? 0) || (CONFIG_REQUESTS_URL_LEN cfg <=? lp)); cbn [negb andb].
    + destruct (CONFIG_NET_SOCKETS_SOCKOPT_TLS cfg); reflexivity.
    + destruct (CONFIG_REQUESTS_URL_LEN cfg <=? C.strlen url);
        destruct (CONFIG_NET_SOCKETS_SOCKOPT_TLS cfg); reflexivity.
  - (* a port of one to five bytes *)
    apply orb_false_iff in Eq. destruct Eq as [_ Eq]. rewrite Eq.
    match goal with
    | |- _ = ?rhs =>
        change (path_stage ctx url purl
                  (set_port (set_hostname (set_schema (url_fields ctx)
                       (parsed_schema ctx url purl)) (parsed_hostname ctx url purl))
                     (C.to_uint16 (C.atoi
                        (C.read url (off (field_data purl UF_PORT)) lq
                           ++ C.NUL :: skipn (S lq) (C.zeros PORT_ASCII_LEN))))) = rhs)
    end.
    rewrite (@path_stage_eq cfg) by assumption.
    cbv zeta. fold lp. rewrite atoi_app_nul.
    destruct ((lp =? 0) || (CONFIG_REQUESTS_URL_LEN cfg <=? lp)); cbn [negb andb].
    + reflexivity.
    + destruct (CONFIG_REQUESTS_URL_LEN cfg <=? C.strlen url); reflexivity.
Qed.

Lemma decimal_acc_nonneg ds : forall acc,
  (0 <= acc)%Z ->
  Forall (fun c => C.isdigit c = true) ds ->
  (0 <= fold_left (fun a c => (a * 10 + C.digit_val c)%Z) ds acc)%Z.
Proof.
  induction ds as [|c ds IH]; intros acc Hacc H; simpl.
  - assumption.
  - inversion H as [|? ? Hc Hds]; subst. apply IH; [|assumption].
    unfold C.isdigit in Hc. cbv zeta in Hc.
    apply andb_prop in Hc. destruct Hc as [H1 _]. apply Nat.leb_le in H1.
    unfold C.digit_val. lia.
Qed.

(** X2. An over-long schema or host: the parser returns -EINVAL, and has not
    written the field that does not fit. *)
Lemma requests_url_parser_fail_closed cfg parse ctx url r purl :
  config_ok cfg -> arrays_ok cfg ctx ->
  parse url = (r, purl) -> (0 <= r)%Z ->
  (SCHEMA_LEN <= len (field_data purl UF_SCHEMA) ->
   requests_url_parser cfg parse ctx url = Returned (- C.EINVAL) ctx) /\
  (0 < len (field_data purl UF_SCHEMA) < SCHEMA_LEN ->
   NI_MAXHOST cfg <= len (field_data purl UF_HOST) ->
   exists ctx',
     requests_url_parser cfg parse ctx url = Returned (- C.EINVAL) ctx' /\
     hostname (url_fields ctx') = hostname (url_fields ctx)).
Proof.
  intros (Hh & Hu2 & Hu) (Hls & Hlh & Hlu) Hparse Hr.
  unfold requests_url_parser. rewrite Hparse.
  replace (r <? 0)%Z with false by (symmetry; apply Z.ltb_ge; lia).
  rewrite requests_url_fields_get_array by (rewrite Hls; unfold SCHEMA_LEN; lia).
  cbn [is_UF_PATH]. rewrite Hls. split.
  - intros Hlong.
    replace (SCHEMA_LEN <=? len (field_data purl UF_SCHEMA)) with true
      by (symmetry; apply Nat.leb_le; lia).
    now rewrite orb_true_r.
  - intros [Hs0 Hs1] Hlong.
    replace (len (field_data purl UF_SCHEMA) =? 0) with false
      by (symmetry; apply Nat.eqb_neq; lia).
    replace (SCHEMA_LEN <=? len (field_data purl UF_SCHEMA)) with false
      by (symmetry; apply Nat.leb_gt; lia).
    cbn [orb set_schema hostname].
    rewrite requests_url_fields_get_array by (rewrite Hlh; lia).
    cbn [is_UF_PATH]. rewrite Hlh.
    replace (NI_MAXHOST cfg <=? len (field_data purl UF_HOST)) with true
      by (symmetry; apply Nat.leb_le; lia).
    rewrite orb_true_r. eexists. split; reflexivity.
Qed.

(** X3. An over-long path is not an error: the parser stores "/" and
    returns 0. *)
Lemma requests_url_parser_long_path cfg parse ctx url r purl :
  config_ok cfg -> arrays_ok cfg ctx ->
  parse url = (r, purl) -> (0 <= r)%Z ->
  schema_host_fit cfg purl ->
  CONFIG_REQUESTS_URL_LEN cfg <= len (field_data purl UF_PATH) ->
  exists ctx',
    requests_url_parser cfg parse ctx url = Returned 0 ctx' /\
    C.cstr (uri (url_fields ctx')) = bytes "/".
Proof.
  intros Hcfg Harr Hparse Hr Hfit Hlong.
  rewrite (requests_url_parser_eq _ _ _ _ _ _ Hcfg Harr Hparse Hr Hfit). cbv zeta.
  replace (CONFIG_REQUESTS_URL_LEN cfg <=? len (field_data purl UF_PATH)) with true
    by (symmetry; apply Nat.leb_le; lia).
  rewrite orb_true_r. cbn [negb andb].
  eexists. split; [reflexivity|].
  cbn [parsed_ctx set_url_fields url_fields uri]. unfold parsed_uri.
  replace (CONFIG_REQUESTS_URL_LEN cfg <=? len (field_data purl UF_PATH)) with true
    by (symmetry; apply Nat.leb_le; lia).
  rewrite orb_true_r. reflexivity.
Qed.

(** X25. The port the parser stores.  With sizes that fit a [uint16_t]
    and the three arrays of the context at their declared sizes, for a URL
    that parses, whose schema and host are present and fit their arrays, and
    which does not make the parser store past the uri array (it has no path,
    or a path that does not fit, or is itself shorter than the array): the
    parser returns 0; when the URL has no port field it stores
    CONFIG_REQUESTS_HTTPS_PORT if the library is built with TLS sockets and
    CONFIG_REQUESTS_HTTP_PORT if it is not, without looking at the schema;
    when it has a port field of one to five bytes, lying inside the URL and
    made of decimal digits, it stores the number they write, cut to a
    [uint16_t] (the number itself when it is below 65536). *)
Theorem requests_url_parser_port cfg parse ctx url r purl :
  config_ok cfg -> arrays_ok cfg ctx ->
  parse url = (r, purl) -> (0 <= r)%Z ->
  schema_host_fit cfg purl ->
  (0 < len (field_data purl UF_PATH) < CONFIG_REQUESTS_URL_LEN cfg ->
   C.strlen url < CONFIG_REQUESTS_URL_LEN cfg) ->
  exists ctx',
    requests_url_parser cfg parse ctx url = Returned 0 ctx' /\
    let d := field_data purl UF_PORT in
    let digits := url_field_text url purl UF_PORT in
    (len d = 0 ->
     port (url_fields ctx') =
       C.to_uint16 (if CONFIG_NET_SOCKETS_SOCKOPT_TLS cfg
                    then CONFIG_REQUESTS_HTTPS_PORT cfg
                    else CONFIG_REQUESTS_HTTP_PORT cfg)) /\
    (0 < len d < PORT_ASCII_LEN ->
     off d + len d <= length url ->
     Forall (fun c => C.isdigit c = true) digits ->
     port (url_fields ctx') = C.to_uint16 (decimal digits) /\
     ((decimal digits < 65536)%Z -> port (url_fields ctx') = decimal digits)).
Proof.
  intros Hcfg Harr Hparse Hr Hfit Hshort.
  rewrite (requests_url_parser_eq _ _ _ _ _ _ Hcfg Harr Hparse Hr Hfit). cbv zeta.
  assert (Hno : negb ((len (field_data purl UF_PATH) =? 0)
                      || (CONFIG_REQUESTS_URL_LEN cfg <=? len (field_data purl UF_PATH)))
                && (CONFIG_REQUESTS_URL_LEN cfg <=? C.strlen url) = false).
  { destruct (Nat.eqb_spec (len (field_data purl UF_PATH)) 0) as [|Hn0];
      [reflexivity|].
    destruct (Nat.leb_spec (CONFIG_REQUESTS_URL_LEN cfg)
                (len (field_data purl UF_PATH))) as [|Hlt]; [reflexivity|].
    cbn [orb negb andb]. apply Nat.leb_gt. apply Hshort. lia. }
  rewrite Hno.
  eexists. split; [reflexivity|].
  cbn [parsed_ctx set_url_fields url_fields port]. unfold parsed_port. split.
  - intros ->. reflexivity.
  - intros [H0 H5] Hin Hdig.
    replace (len (field_data purl UF_PORT) =? 0) with false
      by (symmetry; apply Nat.eqb_neq; lia).
    replace (PORT_ASCII_LEN <=? len (field_data purl UF_PORT)) with false
      by (symmetry; apply Nat.leb_gt; lia).
    cbn [orb]. rewrite read_in_bounds by assumption.
    fold (url_field_text url purl UF_PORT).
    rewrite atoi_decimal by assumption.
    split; [reflexivity|].
    intros Hsmall. unfold C.to_uint16. apply Z.mod_small.
    split; [|assumption].
    unfold decimal. apply decimal_acc_nonneg; [lia | assumption].
Qed.

(** C3. A URL whose path fits the uri array but which is itself as long as
    the array or longer: [requests_url_fields_get] copies [strlen(url)] bytes
    and a NUL into the array, past its end. *)
Theorem requests_url_parser_uri_overrun cfg parse ctx url r purl :
  config_ok cfg -> arrays_ok cfg ctx ->
  parse url = (r, purl) -> (0 <= r)%Z ->
  schema_host_fit cfg purl ->
  0 < len (field_data purl UF_PATH) < CONFIG_REQUESTS_URL_LEN cfg ->
  CONFIG_REQUESTS_URL_LEN cfg <= C.strlen url ->
  requests_url_parser cfg parse ctx url
  = OutOfBounds (S (C.strlen url)) (CONFIG_REQUESTS_URL_LEN cfg).
Proof.
  intros Hcfg Harr Hparse Hr Hfit [Hp0 Hp1] Hlong.
  rewrite (requests_url_parser_eq _ _ _ _ _ _ Hcfg Harr Hparse Hr Hfit). cbv zeta.
  replace (len (field_data purl UF_PATH) =? 0) with false
    by (symmetry; apply Nat.eqb_neq; lia).
  replace (CONFIG_REQUESTS_URL_LEN cfg <=? len (field_data purl UF_PATH)) with false
    by (symmetry; apply Nat.leb_gt; lia).
  replace (CONFIG_REQUESTS_URL_LEN cfg <=? C.strlen url) with true
    by (symmetry; apply Nat.leb_le; lia).
  reflexivity.
Qed.

Example sample_purls_split_their_urls :
  (url_field_text url_https_example purl_https_example UF_SCHEMA = bytes "https" /\
   url_field_text url_https_example purl_https_example UF_HOST = bytes "example.com") /\
  (url_field_text url_http_example purl_http_example UF_SCHEMA = bytes "http" /\
   url_field_text url_http_example purl_http_example UF_HOST = bytes "example.com") /\
  (url_field_text url_https_8443 purl_https_8443 UF_SCHEMA = bytes "https" /\
   url_field_text url_https_8443 purl_https_8443 UF_HOST = bytes "example.com" /\
   url_field_text url_https_8443 purl_https_8443 UF_PORT = bytes "8443" /\
   url_field_text url_https_8443 purl_https_8443 UF_PATH = bytes "/a/b") /\
  (url_field_text url_long_query purl_long_query UF_SCHEMA = bytes "http" /\
   url_field_text url_long_query purl_long_query UF_HOST = bytes "h" /\
   url_field_text url_long_query purl_long_query UF_PATH = bytes "/a" /\
   C.strlen url_long_query = 73) /\
  (url_field_text url_long_path purl_long_path UF_SCHEMA = bytes "http" /\
   url_field_text url_long_path purl_long_path UF_HOST = bytes "h" /\
   url_field_text url_long_path purl_long_path UF_PATH = "/"%char :: repeat "p"%char 70).
Proof. vm_compute. repeat split. Qed.

Lemma requests_url_parser_port_witness :
  (config_ok cfg_tls /\ arrays_ok cfg_tls (memset_ctx cfg_tls) /\
   schema_host_fit cfg_tls purl_https_8443 /\
   C.strlen url_https_8443 < CONFIG_REQUESTS_URL_LEN cfg_tls) /\
  exists ctx',
    requests_url_parser cfg_tls (fun _ => (0%Z, purl_https_8443))
      (memset_ctx cfg_tls) url_https_8443 = Returned 0 ctx' /\
    let d := field_data purl_https_8443 UF_PORT in
    let digits := url_field_text url_https_8443 purl_https_8443 UF_PORT in
    (len d = 0 ->
     port (url_fields ctx') =
       C.to_uint16 (if CONFIG_NET_SOCKETS_SOCKOPT_TLS cfg_tls
                    then CONFIG_REQUESTS_HTTPS_PORT cfg_tls
                    else CONFIG_REQUESTS_HTTP_PORT cfg_tls)) /\
    (0 < len d < PORT_ASCII_LEN ->
     off d + len d <= length url_https_8443 ->
     Forall (fun c => C.isdigit c = true) digits ->
     port (url_fields ctx') = C.to_uint16 (decimal digits) /\
     ((decimal digits < 65536)%Z -> port (url_fields ctx') = decimal digits)).
Proof.
  assert (Hc : config_ok cfg_tls) by (repeat split; by_computation).
  assert (Ha : arrays_ok cfg_tls (memset_ctx cfg_tls)) by (repeat split; by_computation).
  assert (Hf : schema_host_fit cfg_tls purl_https_8443) by (repeat split; by_computation).
  assert (Hs : C.strlen url_https_8443 < CONFIG_REQUESTS_URL_LEN cfg_tls) by by_computation.
  split; [auto|].
  apply (requests_url_parser_port cfg_tls (fun _ => (0%Z, purl_https_8443))
           (memset_ctx cfg_tls) url_https_8443 0%Z purl_https_8443);
    [exact Hc | exact Ha | reflexivity | lia | exact Hf | intros _; exact Hs].
Defined.

(** In a build with TLS sockets the parser gives "http://example.com",
    which has no port, the port 443. *)
Lemma http_url_with_tls_gets_port_443 :
  exists ctx',
    requests_url_parser cfg_tls (fun _ => (0%Z, purl_http_example))
      (memset_ctx cfg_tls) url_http_example = Returned 0 ctx' /\
    C.cstr (schema (url_fields ctx')) = bytes "http" /\
    len (field_data purl_http_example UF_PORT) = 0 /\
    port (url_fields ctx') = 443%Z /\
    port (url_fields ctx') <> 80%Z.
Proof.
  eexists. split; [vm_compute; reflexivity|].
  repeat split; by_computation.
Qed.

(** C2. In a build without TLS sockets the parser accepts
    "https://example.com", which has no port, and stores the port 80, where
    the claim, and the documentation of the member in requests.h (default:
    80 for HTTP, 443 for HTTPS), give 443 to an https URL. *)
Theorem https_url_without_tls_gets_port_80 :
  exists ctx',
    requests_url_parser cfg_http (fun _ => (0%Z, purl_https_example))
      (memset_ctx cfg_http) url_https_example = Returned 0 ctx' /\
    C.cstr (schema (url_fields ctx')) = bytes "https" /\
    len (field_data purl_https_example UF_PORT) = 0 /\
    port (url_fields ctx') = 80%Z /\
    port (url_fields ctx') <> 443%Z.
Proof.
  eexists. split; [vm_compute; reflexivity|].
  repeat split; by_computation.
Qed.

Lemma requests_url_parser_uri_overrun_witness :
  (config_ok cfg_http /\ arrays_ok cfg_http (memset_ctx cfg_http) /\
   schema_host_fit cfg_http purl_long_query /\
   0 < len (field_data purl_long_query UF_PATH) < CONFIG_REQUESTS_URL_LEN cfg_http /\
   CONFIG_REQUESTS_URL_LEN cfg_http <= C.strlen url_long_query) /\
  requests_url_parser cfg_http (fun _ => (0%Z, purl_long_query))
    (memset_ctx cfg_http) url_long_query
  = OutOfBounds 74 64.
Proof.
  assert (Hc : config_ok cfg_http) by (repeat split; by_computation).
  assert (Ha : arrays_ok cfg_http (memset_ctx cfg_http)) by (repeat split; by_computation).
  assert (Hf : schema_host_fit cfg_http purl_long_query) by (repeat split; by_computation).
  assert (Hp : 0 < len (field_data purl_long_query UF_PATH)
               < CONFIG_REQUESTS_URL_LEN cfg_http) by (split; by_computation).
  assert (Hl : CONFIG_REQUESTS_URL_LEN cfg_http <= C.strlen url_long_query)
    by by_computation.
  split; [auto 10|].
  apply (requests_url_parser_uri_overrun cfg_http (fun _ => (0%Z, purl_long_query))
           (memset_ctx cfg_http) url_long_query 0%Z purl_long_query);
    try assumption; try reflexivity; lia.
Defined.

(** A path longer than the uri array: no error, the request goes to "/". *)
Example long_path_is_replaced :
  exists ctx',
    requests_url_parser cfg_http (fun _ => (0%Z, purl_long_path))
      (memset_ctx cfg_http) url_long_path = Returned 0 ctx' /\
    C.cstr (uri (url_fields ctx')) = bytes "/".
Proof. eexists. split; vm_compute; reflexivity. Qed.

(* ================================================================== *)
(** ** The readiness gate *)
(* ================================================================== *)

Lemma last_cons {A} (l : list A) (a d : A) : last (a :: l) d = last l a.
Proof.
  revert a d. induction l as [|b l IH]; intros a d.
  - reflexivity.
  - change (last (a :: b :: l) d) with (last (b :: l) d).
    now rewrite !IH.
Qed.

Lemma k_sem_take_inv (W E : Type) (count : W -> nat) (set_count : W -> nat -> W)
    (deliver : E -> W -> W) (P : W -> Prop) :
  (forall w c, P w -> P (set_count w c)) ->
  (forall e w, P w -> P (deliver e w)) ->
  forall evs w, P w -> P (snd (k_sem_take count set_count deliver evs w)).
Proof.
  intros Hset Hdel. induction evs as [|e evs IH]; intros w Hw; simpl.
  - destruct (count w); simpl; auto.
  - destruct (count w); simpl; auto.
Qed.

Lemma take_ipv4_wait_dns_wait evs st :
  dns_wait (snd (take_ipv4_wait evs st)) = dns_wait st.
Proof.
  unfold take_ipv4_wait.
  apply (k_sem_take_inv _ _ ipv4_wait _ net_event_l4_handler
           (fun s => dns_wait s = dns_wait st)).
  - intros w c H. exact H.
  - intros e w H. destruct e; exact H.
  - reflexivity.
Qed.

(** The lookup writes two members of the context, [sa] and [err]: whatever
    does not depend on them is as before. *)
Lemma requests_dns_lookup_keeps {A} (f : requests_ctx -> A) nh g :
  (forall c a, f (set_sa c a) = f c) ->
  (forall c e, f (set_err c e) = f c) ->
  f (fst (snd (requests_dns_lookup nh g))) = f (fst g).
Proof.
  intros Hsa Herr.
  assert (Hcb : forall s info w, f (fst (requests_dns_cb s info w)) = f (fst w)).
  { intros s info [c st]. unfold requests_dns_cb.
    destruct info as [i|]; [destruct (is_AF_INET (ai_family i))|]; cbn [fst].
    - now rewrite Herr, Hsa.
    - now rewrite Herr.
    - reflexivity. }
  destruct g as [ctx st]. unfold requests_dns_lookup.
  destruct (C.strlen (hostname (url_fields ctx)) =? 0); [reflexivity|].
  destruct (take_ipv4_wait (l4_events nh) st) as [r st1].
  destruct (r <? 0)%Z; [reflexivity|].
  destruct (dns_get_addr_info_ret nh <? 0)%Z; [reflexivity|].
  pose proof (k_sem_take_inv _ _ (fun g : gate => dns_wait (snd g))
                (fun g c => (fst g, {| ipv4_wait := ipv4_wait (snd g); dns_wait := c |}))
                (fun e => requests_dns_cb (fst e) (snd e))
                (fun g => f (fst g) = f ctx)) as Hinv.
  specialize (Hinv (fun w c H => H)
                   (fun e w H => eq_trans (Hcb _ _ w) H)
                   (dns_events nh) (ctx, st1) eq_refl).
  unfold take_dns_wait. cbv beta in Hinv.
  match goal with
  | |- context [k_sem_take ?a ?b ?c ?d ?e] =>
      destruct (k_sem_take a b c d e) as [r2 [ctx2 st2]]
  end.
  simpl in Hinv.
  destruct (r2 <? 0)%Z; exact Hinv.
Qed.

(** The wait of the gate, from a semaphore at 0: it ends with -EAGAIN when
    no all-done comes, and otherwise at the first all-done, with the latest
    IPv4 address and the latest result's verdict in the context. *)
Lemma take_dns_wait_eq evs : forall ctx st,
  dns_wait st = 0 ->
  match until_alldone evs with
  | None => fst (take_dns_wait evs (ctx, st)) = (- C.EAGAIN)%Z
  | Some pre =>
      exists ctx',
        take_dns_wait evs (ctx, st) = (0%Z, (ctx', st)) /\
        sa ctx' = latest_ipv4 (results pre) (sa ctx) /\
        err ctx' = latest_verdict (results pre) (err ctx)
  end.
Proof.
  unfold take_dns_wait.
  induction evs as [|[s info] evs IH]; intros ctx st Hst.
  - simpl. rewrite Hst. reflexivity.
  - cbn [until_alldone fst]. cbn [k_sem_take]. cbn [snd fst]. rewrite Hst.
    destruct s; cbn [is_ALLDONE];
      try (
        (* not the all-done: the callback may store a result, and the wait goes on *)
        unfold requests_dns_cb; cbn [fst snd];
        destruct info as [i|];
        [ destruct (is_AF_INET (ai_family i)) eqn:Ei;
          [ specialize (IH (set_err (set_sa ctx (ai_addr i)) 0%Z) st Hst)
          | specialize (IH (set_err ctx (- C.EINVAL)%Z) st Hst) ]
        | specialize (IH ctx st Hst) ];
        destruct (until_alldone evs) as [pre|]; cbn [option_map];
        [ destruct IH as (ctx' & Hrun & Hsa & Herr);
          exists ctx'; split; [exact Hrun|];
          unfold latest_ipv4, latest_verdict, results in *;
          cbn [flat_map snd app filter map]; rewrite ?Ei;
          cbn [map]; rewrite ?last_cons; split; assumption
        | exact IH
        | destruct IH as (ctx' & Hrun & Hsa & Herr);
          exists ctx'; split; [exact Hrun|];
          unfold latest_ipv4, latest_verdict, results in *;
          cbn [flat_map snd app filter map]; rewrite ?Ei;
          cbn [map]; rewrite ?last_cons; split; assumption
        | exact IH
        | destruct IH as (ctx' & Hrun & Hsa & Herr);
          exists ctx'; split; [exact Hrun|];
          split; assumption
        | exact IH ]).
    (* the all-done: the semaphore is given, the take returns *)
    unfold requests_dns_cb. cbn [fst snd]. rewrite Hst.
    assert (Hk : k_sem_give 0 = 1) by reflexivity. rewrite Hk.
    destruct st as [iw dw]. simpl in Hst. subst dw.
    destruct info as [i|]; [destruct (is_AF_INET (ai_family i)) eqn:Ei|];
      (destruct evs; cbn [k_sem_take fst snd ipv4_wait dns_wait];
       eexists; (split; [reflexivity|]);
       unfold latest_ipv4, latest_verdict, results;
       cbn [flat_map snd app filter map]; rewrite ?Ei; cbn [map last];
       split; reflexivity).
Qed.

(** C7 (amended). A lookup on a context with a host name, from a semaphore
    at 0, once the link is up and the query is accepted: the lookup returns
    only at the first all-done, or with -EAGAIN when none comes before the
    timeout; at the all-done, the context holds the most recent IPv4 result
    delivered (not the first), and the value returned is the verdict of the
    most recent result, 0 for an IPv4 one and -EINVAL for any other. *)
Theorem requests_dns_lookup_gate nh ctx st st1 :
  C.strlen (hostname (url_fields ctx)) <> 0 ->
  dns_wait st = 0 ->
  take_ipv4_wait (l4_events nh) st = (0%Z, st1) ->
  (0 <= dns_get_addr_info_ret nh)%Z ->
  match until_alldone (dns_events nh) with
  | None => fst (requests_dns_lookup nh (ctx, st)) = (- C.EAGAIN)%Z
  | Some pre =>
      exists ctx',
        requests_dns_lookup nh (ctx, st)
        = (latest_verdict (results pre) (err ctx), (ctx', st1)) /\
        sa ctx' = latest_ipv4 (results pre) (sa ctx) /\
        err ctx' = latest_verdict (results pre) (err ctx)
  end.
Proof.
  intros Hname Hst Hlink Hquery.
  assert (Hst1 : dns_wait st1 = 0).
  { pose proof (take_ipv4_wait_dns_wait (l4_events nh) st) as H.
    rewrite Hlink in H. simpl in H. congruence. }
  pose proof (take_dns_wait_eq (dns_events nh) ctx st1 Hst1) as Hwait.
  unfold requests_dns_lookup.
  replace (C.strlen (hostname (url_fields ctx)) =? 0) with false
    by (symmetry; now apply Nat.eqb_neq).
  rewrite Hlink. cbn [Z.ltb Z.compare].
  replace (dns_get_addr_info_ret nh <? 0)%Z with false
    by (symmetry; apply Z.ltb_ge; lia).
  destruct (until_alldone (dns_events nh)) as [pre|].
  - destruct Hwait as (ctx' & Hrun & Hsa & Herr).
    exists ctx'. rewrite Hrun. cbn [Z.ltb Z.compare].
    rewrite Herr. repeat split; assumption.
  - destruct (take_dns_wait (dns_events nh) (ctx, st1)) as [r [ctx2 st2]].
    simpl in Hwait. subst r. reflexivity.
Qed.

Lemma requests_dns_lookup_gate_witness :
  (C.strlen (hostname (url_fields ctx_example_com)) <> 0 /\
   dns_wait statics_init = 0 /\
   take_ipv4_wait (l4_events (net_up [result_of addr_a; result_of addr_b; alldone]))
     statics_init = (0%Z, statics_init)) /\
  match until_alldone (dns_events (net_up [result_of addr_a; result_of addr_b; alldone])) with
  | None =>
      fst (requests_dns_lookup (net_up [result_of addr_a; result_of addr_b; alldone])
             (ctx_example_com, statics_init)) = (- C.EAGAIN)%Z
  | Some pre =>
      exists ctx',
        requests_dns_lookup (net_up [result_of addr_a; result_of addr_b; alldone])
          (ctx_example_com, statics_init)
        = (latest_verdict (results pre) (err ctx_example_com), (ctx', statics_init)) /\
        sa ctx' = latest_ipv4 (results pre) (sa ctx_example_com) /\
        err ctx' = latest_verdict (results pre) (err ctx_example_com)
  end.
Proof.
  assert (Hn : C.strlen (hostname (url_fields ctx_example_com)) <> 0)
    by (vm_compute; discriminate).
  split.
  - split; [exact Hn | split; reflexivity].
  - apply (requests_dns_lookup_gate
             (net_up [result_of addr_a; result_of addr_b; alldone])
             ctx_example_com statics_init statics_init);
      [exact Hn | reflexivity | reflexivity | cbn; lia].
Defined.

(** C7, as stated, fails: with two IPv4 results before the all-done, the
    context holds the second one, not the first. *)
Lemma requests_dns_lookup_keeps_last_ipv4 :
  exists ctx' st',
    requests_dns_lookup (net_up [result_of addr_a; result_of addr_b; alldone])
      (ctx_example_com, statics_init) = (0%Z, (ctx', st')) /\
    sa ctx' = addr_b /\ sa ctx' <> addr_a.
Proof.
  do 2 eexists. split; [vm_compute; reflexivity|].
  split; [reflexivity | discriminate].
Qed.

(** ... and a result that is not IPv4 is forgotten when an IPv4 one follows,
    while it fails the lookup when it comes last. *)
Lemma requests_dns_lookup_verdict_is_last :
  fst (requests_dns_lookup (net_up [result_of addr_v6; result_of addr_a; alldone])
         (ctx_example_com, statics_init)) = 0%Z /\
  fst (requests_dns_lookup (net_up [result_of addr_a; result_of addr_v6; alldone])
         (ctx_example_com, statics_init)) = (- C.EINVAL)%Z.
Proof. split; vm_compute; reflexivity. Qed.

(** A semaphore left given by an earlier lookup lets the next one through
    before any callback. *)
Lemma requests_dns_lookup_stale_semaphore :
  requests_dns_lookup (net_up [])
    (ctx_example_com, {| ipv4_wait := 0; dns_wait := 1 |})
  = (0%Z, (ctx_example_com, statics_init)).
Proof. vm_compute. reflexivity. Qed.

(* ================================================================== *)
(** ** [requests_init] and the is_ssl flag *)
(* ================================================================== *)

Lemma requests_url_parser_is_ssl cfg parse ctx url r ctx' :
  requests_url_parser cfg parse ctx url = Returned r ctx' ->
  is_ssl (url_fields ctx') = is_ssl (url_fields ctx).
Proof.
  unfold requests_url_parser.
  destruct (parse url) as [r0 purl].
  repeat match goal with
         | |- context [match ?x with _ => _ end] => destruct x
         end;
    intros H; inversion H; reflexivity.
Qed.

(** No path through [requests_init] sets is_ssl: it is false in every
    context the model's [requests_init] returns (the runs that store past
    the uri array, on which the C code writes over the members that follow
    it, are not among them). *)
Lemma requests_init_is_ssl cfg parse nh st url r ctx st' :
  requests_init cfg parse nh st url = (Returned r ctx, st') ->
  is_ssl (url_fields ctx) = false.
Proof.
  unfold requests_init.
  set (ctx0 := if CONFIG_REQUESTS_SSL_VERIFYPEER cfg then _ else _).
  assert (H0 : is_ssl (url_fields ctx0) = false).
  { subst ctx0. destruct (CONFIG_REQUESTS_SSL_VERIFYPEER cfg),
      (CONFIG_REQUESTS_SSL_VERIFYHOST cfg); reflexivity. }
  destruct (requests_url_parser cfg parse ctx0 url) as [r1 ctx1|] eqn:Ep;
    [|discriminate].
  apply requests_url_parser_is_ssl in Ep.
  destruct (r1 <? 0)%Z.
  - intros H. inversion H; subst. congruence.
  - pose proof (requests_dns_lookup_keeps url_fields nh (ctx1, st)
                  (fun _ _ => eq_refl) (fun _ _ => eq_refl)) as Hd.
    destruct (requests_dns_lookup nh (ctx1, st)) as [r2 [ctx2 st2]].
    simpl in Hd.
    destruct (r2 <? 0)%Z; intros H; inversion H; subst; congruence.
Qed.

Lemma requests_url_parser_buffers cfg parse ctx url r ctx' :
  requests_url_parser cfg parse ctx url = Returned r ctx' ->
  payload ctx' = payload ctx /\ protocol ctx' = protocol ctx.
Proof.
  unfold requests_url_parser.
  destruct (parse url) as [r0 purl].
  repeat match goal with
         | |- context [match ?x with _ => _ end] => destruct x
         end;
    intros H; inversion H; split; reflexivity.
Qed.

(** Every context [requests_init] returns has its two string buffers as
    [requests_setopt] expects them. *)
Lemma requests_init_buffers_ok cfg parse nh st url r ctx st' :
  requests_init cfg parse nh st url = (Returned r ctx, st') ->
  buffers_ok cfg ctx.
Proof.
  unfold requests_init.
  set (ctx0 := if CONFIG_REQUESTS_SSL_VERIFYPEER cfg then _ else _).
  assert (H0 : payload ctx0 = payload (memset_ctx cfg) /\
               protocol ctx0 = protocol (memset_ctx cfg)).
  { subst ctx0. destruct (CONFIG_REQUESTS_SSL_VERIFYPEER cfg),
      (CONFIG_REQUESTS_SSL_VERIFYHOST cfg); split; reflexivity. }
  assert (Hok : forall c, payload c = payload (memset_ctx cfg) ->
                          protocol c = protocol (memset_ctx cfg) ->
                          buffers_ok cfg c).
  { intros c Hp Hq. pose proof (memset_ctx_buffers_ok cfg) as [Mp Mq].
    unfold buffers_ok. rewrite Hp, Hq. split; assumption. }
  destruct H0 as [H0p H0q].
  destruct (requests_url_parser cfg parse ctx0 url) as [r1 ctx1|] eqn:Ep;
    [|discriminate].
  apply requests_url_parser_buffers in Ep. destruct Ep as [Ep Eq].
  destruct (r1 <? 0)%Z.
  - intros H. inversion H; subst. apply Hok; congruence.
  - pose proof (requests_dns_lookup_keeps payload nh (ctx1, st)
                  (fun _ _ => eq_refl) (fun _ _ => eq_refl)) as Hdp.
    pose proof (requests_dns_lookup_keeps protocol nh (ctx1, st)
                  (fun _ _ => eq_refl) (fun _ _ => eq_refl)) as Hdq.
    destruct (requests_dns_lookup nh (ctx1, st)) as [r2 [ctx2 st2]].
    simpl in Hdp, Hdq.
    destruct (r2 <? 0)%Z; intros H; inversion H; subst; apply Hok; congruence.
Qed.

(** C4. [requests_init] on "https://example.com:8443/a/b" in a TLS build,
    with the link up and the name resolved, returns 0 with
    hostname "example.com", uri "/a/b" and port 8443, and with is_ssl
    false. *)
Theorem requests_init_https_is_ssl_false :
  exists ctx st',
    requests_init cfg_tls (fun _ => (0%Z, purl_https_8443))
      (net_up [result_of addr_a; alldone]) statics_init url_https_8443
    = (Returned 0 ctx, st') /\
    C.cstr (schema (url_fields ctx)) = bytes "https" /\
    C.cstr (hostname (url_fields ctx)) = bytes "example.com" /\
    C.cstr (uri (url_fields ctx)) = bytes "/a/b" /\
    port (url_fields ctx) = 8443%Z /\
    sa ctx = addr_a /\
    is_ssl (url_fields ctx) = false.
Proof.
  do 2 eexists. split; [vm_compute; reflexivity|].
  repeat split; vm_compute; reflexivity.
Qed.

(* ================================================================== *)
(** ** Connection setup and execute *)
(* ================================================================== *)



(** On a context fresh from [requests_init], with verify-peer switched off:
    the disable value. *)
Example requests_connect_setup_fresh_context_disables :
  snd (requests_connect_setup cfg_tls host_ok
         (requests_setopt (requests_init_ctx cfg_tls) REQUESTS_SSL_VERIFYPEER false) [])
  = [sys_socket IPPROTO_TLS_1_2;
     sys_setsockopt 3 (TLS_HOSTNAME (C.zeros 64) 64);
     sys_setsockopt 3 (TLS_PEER_VERIFY 0)].
Proof. reflexivity. Qed.

(** How often [requests] closes the socket it has created: never when the
    setup fails after [socket] (a TLS option is refused), once otherwise,
    whether [connect] and the exchange succeed or not. *)
Lemma requests_closes_count cfg h ctx method :
  let fd := answer h (sys_socket (socket_proto cfg)) in
  (0 <= fd)%Z ->
  closes fd (snd (requests cfg h (Some ctx) method [])) =
    if (fst (fst (requests_connect_setup cfg h ctx [])) <? 0)%Z then 0 else 1.
Proof.
  intros fd Hfd. subst fd. unfold socket_proto in *. run_c.
  destruct (CONFIG_NET_SOCKETS_SOCKOPT_TLS cfg);
    (replace (answer h (sys_socket _) <? 0)%Z with false
       by (symmetry; apply Z.ltb_ge; lia));
    destruct (is_ssl_verifyhost ctx); destruct (is_ssl_verifypeer ctx);
    case_conditions; cbn in *;
    unfold closes; cbn; rewrite ?Z.eqb_refl; try reflexivity; try lia.
Qed.

(** C1. In a TLS build, when the socket is created and a TLS option is then
    refused, [requests] returns -ECONNABORTED with the socket created and
    never closed. *)
Theorem requests_leaks_socket_when_tls_setup_fails cfg h ctx method :
  let fd := answer h (sys_socket (socket_proto cfg)) in
  (0 <= fd)%Z ->
  (fst (fst (requests_connect_setup cfg h ctx [])) < 0)%Z ->
  fst (fst (requests cfg h (Some ctx) method [])) = (- C.ECONNABORTED)%Z /\
  existsb is_socket (snd (requests cfg h (Some ctx) method [])) = true /\
  closes fd (snd (requests cfg h (Some ctx) method [])) = 0.
Proof.
  intros fd Hfd Hfail. split; [|split].
  - revert Hfail. subst fd. unfold socket_proto in *. run_c.
    destruct (CONFIG_NET_SOCKETS_SOCKOPT_TLS cfg);
      (replace (answer h (sys_socket _) <? 0)%Z with false
         by (symmetry; apply Z.ltb_ge; lia));
      destruct (is_ssl_verifyhost ctx); destruct (is_ssl_verifypeer ctx);
      case_conditions; cbn in *; intros; try reflexivity; try lia.
  - run_c.
    destruct (CONFIG_NET_SOCKETS_SOCKOPT_TLS cfg);
      destruct (is_ssl_verifyhost ctx); destruct (is_ssl_verifypeer ctx);
      case_conditions; reflexivity.
  - subst fd. rewrite requests_closes_count by assumption.
    now replace (fst (fst (requests_connect_setup cfg h ctx [])) <? 0)%Z with true
      by (symmetry; apply Z.ltb_lt; assumption).
Qed.

Lemma requests_leaks_socket_when_tls_setup_fails_witness :
  ((0 <= answer host_hostname_fails (sys_socket (socket_proto cfg_tls)))%Z /\
   (fst (fst (requests_connect_setup cfg_tls host_hostname_fails
                (requests_setopt (memset_ctx cfg_tls) REQUESTS_SSL_VERIFYHOST true)
                [])) < 0)%Z) /\
  fst (fst (requests cfg_tls host_hostname_fails
              (Some (requests_setopt (memset_ctx cfg_tls) REQUESTS_SSL_VERIFYHOST true))
              HTTP_GET [])) = (- C.ECONNABORTED)%Z /\
  existsb is_socket
    (snd (requests cfg_tls host_hostname_fails
            (Some (requests_setopt (memset_ctx cfg_tls) REQUESTS_SSL_VERIFYHOST true))
            HTTP_GET [])) = true /\
  closes 3
    (snd (requests cfg_tls host_hostname_fails
            (Some (requests_setopt (memset_ctx cfg_tls) REQUESTS_SSL_VERIFYHOST true))
            HTTP_GET [])) = 0.
Proof.
  split; [split; cbn; lia|].
  apply (requests_leaks_socket_when_tls_setup_fails cfg_tls host_hostname_fails
           (requests_setopt (memset_ctx cfg_tls) REQUESTS_SSL_VERIFYHOST true)
           HTTP_GET); cbn; lia.
Defined.

(** The failing run, call by call: the socket, the refused option, and
    nothing else. *)
Example requests_tls_hostname_refused_trace :
  requests cfg_tls host_hostname_fails
    (Some (requests_setopt (memset_ctx cfg_tls) REQUESTS_SSL_VERIFYHOST true))
    HTTP_GET []
  = ((- C.ECONNABORTED,
      Some (set_sockfd
              (requests_setopt (memset_ctx cfg_tls) REQUESTS_SSL_VERIFYHOST true) 3))%Z,
     [sys_socket IPPROTO_TLS_1_2;
      sys_setsockopt 3 (TLS_HOSTNAME (C.zeros 64) 64)]).
Proof. reflexivity. Qed.

(** X12. Where the setup succeeds, the socket is closed exactly once. *)
Lemma requests_closes_once_after_setup cfg h ctx method :
  let fd := answer h (sys_socket (socket_proto cfg)) in
  (0 <= fd)%Z ->
  (0 <= fst (fst (requests_connect_setup cfg h ctx [])))%Z ->
  closes fd (snd (requests cfg h (Some ctx) method [])) = 1.
Proof.
  intros fd Hfd Hok. subst fd. rewrite requests_closes_count by assumption.
  now replace (fst (fst (requests_connect_setup cfg h ctx [])) <? 0)%Z with false
    by (symmetry; apply Z.ltb_ge; assumption).
Qed.

(** C8 (amended). [requests] returns -EINVAL without a call to the socket
    layer when the context pointer is NULL; on any context it is given, it
    goes on to the connection step, which opens with [socket]. *)
Theorem requests_checks_only_null cfg h method t :
  requests cfg h None method t = ((- C.EINVAL)%Z, None, t) /\
  forall ctx, exists rest,
    snd (requests cfg h (Some ctx) method t)
    = t ++ sys_socket (socket_proto cfg) :: rest.
Proof.
  split; [reflexivity|].
  intros ctx. unfold socket_proto. run_c.
  destruct (CONFIG_NET_SOCKETS_SOCKOPT_TLS cfg);
    destruct (is_ssl_verifyhost ctx); destruct (is_ssl_verifypeer ctx);
    case_conditions; cbn [snd fst];
    repeat rewrite <- app_assoc; cbn [app]; eexists; reflexivity.
Qed.

(** C8, as stated, fails: on a zeroed context, with no URL parsed and no
    address resolved, [requests] opens a socket, connects and sends. *)
Lemma requests_runs_on_unprepared_context :
  exists ctx' t,
    requests cfg_http host_ok (Some (memset_ctx cfg_http)) HTTP_GET []
    = ((0%Z, ctx'), t) /\
    0%Z <> (- C.EINVAL)%Z /\
    C.strlen (hostname (url_fields (memset_ctx cfg_http))) = 0 /\
    sa (memset_ctx cfg_http) = sockaddr_zero /\
    existsb is_socket t = true /\ existsb is_connect t = true.
Proof.
  do 2 eexists. split; [reflexivity|].
  repeat split; by_computation.
Qed.

(** What the descriptor carries as payload. *)
Lemma build_request_payload ctx method :
  req_payload (build_request ctx method)
  = (if carries_body method then Some (payload ctx) else None) /\
  req_payload_len (build_request ctx method)
  = (if carries_body method then length (payload ctx) else 0).
Proof. unfold build_request. destruct (carries_body method); split; reflexivity. Qed.

(** The descriptor handed to [http_client_req], when the connection is
    made, is [build_request] of the context. *)
Lemma requests_hands_build_request cfg h ctx method :
  (0 <= answer h (sys_socket (socket_proto cfg)))%Z ->
  (0 <= fst (fst (requests_connect cfg h ctx [])))%Z ->
  http_requests (snd (requests cfg h (Some ctx) method []))
  = [build_request (snd (fst (requests_connect cfg h ctx []))) method].
Proof.
  unfold socket_proto. run_c.
  destruct (CONFIG_NET_SOCKETS_SOCKOPT_TLS cfg);
    destruct (is_ssl_verifyhost ctx); destruct (is_ssl_verifypeer ctx);
    case_conditions; cbn in *; intros; try reflexivity; try lia.
Qed.

(** C6. A POST of "hello" with REQUESTS_POSTFIELDS_SIZE 5: the descriptor
    handed to the transport has the payload buffer and, as its length, the
    size of the whole buffer (576 here), not the declared 5, nor the
    [payload_size] of the context, which is still 0. A GET carries no
    payload. *)
Theorem requests_payload_len_is_buffer_size :
  (exists req,
     http_requests (snd (requests cfg_http host_ok (Some ctx_post_hello) HTTP_POST []))
     = [req] /\
     option_map C.cstr (req_payload req) = Some (bytes "hello") /\
     req_payload_len req = 576 /\
     payload_size ctx_post_hello = 0%Z) /\
  (exists req,
     http_requests (snd (requests cfg_http host_ok (Some ctx_post_hello) HTTP_GET []))
     = [req] /\
     req_payload req = None /\ req_payload_len req = 0).
Proof.
  split; eexists; (split; [vm_compute; reflexivity|]);
    repeat split; vm_compute; reflexivity.
Qed.


(* ================================================================== *)
(** ** More on the URL parser *)
(* ================================================================== *)

Lemma requests_url_parser_fail_closed_witness :
  (config_ok cfg_http /\ arrays_ok cfg_http (memset_ctx cfg_http)) /\
  (SCHEMA_LEN <= len (field_data purl_long_schema UF_SCHEMA) ->
   requests_url_parser cfg_http (fun _ => (0%Z, purl_long_schema))
     (memset_ctx cfg_http) (bytes "httpsssss://h")
   = Returned (- C.EINVAL) (memset_ctx cfg_http)) /\
  (0 < len (field_data purl_long_schema UF_SCHEMA) < SCHEMA_LEN ->
   NI_MAXHOST cfg_http <= len (field_data purl_long_schema UF_HOST) ->
   exists ctx',
     requests_url_parser cfg_http (fun _ => (0%Z, purl_long_schema))
       (memset_ctx cfg_http) (bytes "httpsssss://h")
     = Returned (- C.EINVAL) ctx' /\
     hostname (url_fields ctx') = hostname (url_fields (memset_ctx cfg_http))).
Proof.
  assert (Hc : config_ok cfg_http) by (repeat split; by_computation).
  assert (Ha : arrays_ok cfg_http (memset_ctx cfg_http)) by (repeat split; by_computation).
  split; [split; assumption|].
  apply (requests_url_parser_fail_closed cfg_http (fun _ => (0%Z, purl_long_schema))
           (memset_ctx cfg_http) (bytes "httpsssss://h") 0%Z purl_long_schema);
    [exact Hc | exact Ha | reflexivity | lia].
Defined.

Lemma requests_url_parser_long_path_witness :
  (config_ok cfg_http /\ arrays_ok cfg_http (memset_ctx cfg_http) /\
   schema_host_fit cfg_http purl_long_path /\
   CONFIG_REQUESTS_URL_LEN cfg_http <= len (field_data purl_long_path UF_PATH)) /\
  exists ctx',
    requests_url_parser cfg_http (fun _ => (0%Z, purl_long_path))
      (memset_ctx cfg_http) url_long_path = Returned 0 ctx' /\
    C.cstr (uri (url_fields ctx')) = bytes "/".
Proof.
  assert (Hc : config_ok cfg_http) by (repeat split; by_computation).
  assert (Ha : arrays_ok cfg_http (memset_ctx cfg_http)) by (repeat split; by_computation).
  assert (Hf : schema_host_fit cfg_http purl_long_path) by (repeat split; by_computation).
  assert (Hl : CONFIG_REQUESTS_URL_LEN cfg_http <= len (field_data purl_long_path UF_PATH))
    by by_computation.
  split; [auto|].
  apply (requests_url_parser_long_path cfg_http (fun _ => (0%Z, purl_long_path))
           (memset_ctx cfg_http) url_long_path 0%Z purl_long_path);
    [exact Hc | exact Ha | reflexivity | lia | exact Hf | exact Hl].
Defined.

(** A URL without a schema or without a host, or with one that does not
    fit: the parser returns -EINVAL. *)
Lemma requests_url_parser_rejects cfg parse ctx url r purl :
  config_ok cfg -> arrays_ok cfg ctx ->
  parse url = (r, purl) -> (0 <= r)%Z ->
  ~ schema_host_fit cfg purl ->
  exists ctx', requests_url_parser cfg parse ctx url = Returned (- C.EINVAL) ctx'.
Proof.
  intros (Hh & Hu2 & Hu) (Hls & Hlh & Hlu) Hparse Hr Hnot.
  unfold requests_url_parser. rewrite Hparse.
  replace (r <? 0)%Z with false by (symmetry; apply Z.ltb_ge; lia).
  rewrite requests_url_fields_get_array by (rewrite Hls; unfold SCHEMA_LEN; lia).
  cbn [is_UF_PATH]. rewrite Hls.
  destruct ((len (field_data purl UF_SCHEMA) =? 0)
            || (SCHEMA_LEN <=? len (field_data purl UF_SCHEMA))) eqn:Es.
  - eexists. reflexivity.
  - apply orb_false_iff in Es. destruct Es as [Es0 Es1].
    apply Nat.eqb_neq in Es0. apply Nat.leb_gt in Es1.
    replace (SCHEMA_LEN <=? len (field_data purl UF_SCHEMA)) with false
      by (symmetry; apply Nat.leb_gt; lia).
    cbn [set_schema hostname].
    rewrite requests_url_fields_get_array by (rewrite Hlh; lia).
    cbn [is_UF_PATH]. rewrite Hlh.
    destruct ((len (field_data purl UF_HOST) =? 0)
              || (NI_MAXHOST cfg <=? len (field_data purl UF_HOST))) eqn:Eh.
    + eexists. reflexivity.
    + apply orb_false_iff in Eh. destruct Eh as [Eh0 Eh1].
      apply Nat.eqb_neq in Eh0. apply Nat.leb_gt in Eh1.
      exfalso. apply Hnot. unfold schema_host_fit. lia.
Qed.

Lemma uri_in_bounds_no_overrun cfg url purl :
  uri_in_bounds cfg url purl ->
  negb ((len (field_data purl UF_PATH) =? 0)
        || (CONFIG_REQUESTS_URL_LEN cfg <=? len (field_data purl UF_PATH)))
  && (CONFIG_REQUESTS_URL_LEN cfg <=? C.strlen url) = false.
Proof.
  intros Hin.
  destruct (Nat.eqb_spec (len (field_data purl UF_PATH)) 0) as [|Hn0];
    [reflexivity|].
  destruct (Nat.leb_spec (CONFIG_REQUESTS_URL_LEN cfg)
              (len (field_data purl UF_PATH))) as [|Hlt]; [reflexivity|].
  cbn [orb negb andb]. apply Nat.leb_gt. apply Hin. lia.
Qed.

(** X1. The three ways [requests_url_parser] ends on a URL that parses:
    with -EINVAL when the schema or the host is missing or does not fit;
    with [strlen(url)] bytes and a NUL stored into the uri array, past its
    end, when schema and host fit, the path fits and the URL is as long as
    the array or longer (the C function then goes on to return 0, over
    whatever follows uri in memory); with 0 and every store inside its array
    in all other cases. *)
Theorem requests_url_parser_outcomes cfg parse ctx url r purl :
  config_ok cfg -> arrays_ok cfg ctx ->
  parse url = (r, purl) -> (0 <= r)%Z ->
  (~ schema_host_fit cfg purl ->
   exists ctx', requests_url_parser cfg parse ctx url = Returned (- C.EINVAL) ctx') /\
  (schema_host_fit cfg purl ->
   0 < len (field_data purl UF_PATH) < CONFIG_REQUESTS_URL_LEN cfg ->
   CONFIG_REQUESTS_URL_LEN cfg <= C.strlen url ->
   requests_url_parser cfg parse ctx url
   = OutOfBounds (S (C.strlen url)) (CONFIG_REQUESTS_URL_LEN cfg)) /\
  (schema_host_fit cfg purl -> uri_in_bounds cfg url purl ->
   exists ctx', requests_url_parser cfg parse ctx url = Returned 0 ctx').
Proof.
  intros Hcfg Harr Hparse Hr. split; [|split].
  - intros Hnot.
    exact (requests_url_parser_rejects cfg parse ctx url r purl
             Hcfg Harr Hparse Hr Hnot).
  - intros Hfit [Hp0 Hp1] Hlong.
    rewrite (requests_url_parser_eq _ _ _ _ _ _ Hcfg Harr Hparse Hr Hfit). cbv zeta.
    replace (len (field_data purl UF_PATH) =? 0) with false
      by (symmetry; apply Nat.eqb_neq; lia).
    replace (CONFIG_REQUESTS_URL_LEN cfg <=? len (field_data purl UF_PATH)) with false
      by (symmetry; apply Nat.leb_gt; lia).
    replace (CONFIG_REQUESTS_URL_LEN cfg <=? C.strlen url) with true
      by (symmetry; apply Nat.leb_le; lia).
    reflexivity.
  - intros Hfit Hin.
    rewrite (requests_url_parser_eq _ _ _ _ _ _ Hcfg Harr Hparse Hr Hfit). cbv zeta.
    rewrite (uri_in_bounds_no_overrun _ _ _ Hin). eexists. reflexivity.
Qed.

Lemma requests_url_parser_outcomes_witness :
  (config_ok cfg_http /\ arrays_ok cfg_http (memset_ctx cfg_http) /\
   schema_host_fit cfg_http purl_long_query /\
   0 < len (field_data purl_long_query UF_PATH) < CONFIG_REQUESTS_URL_LEN cfg_http /\
   CONFIG_REQUESTS_URL_LEN cfg_http <= C.strlen url_long_query) /\
  (~ schema_host_fit cfg_http purl_long_query ->
   exists ctx', requests_url_parser cfg_http (fun _ => (0%Z, purl_long_query))
                  (memset_ctx cfg_http) url_long_query = Returned (- C.EINVAL) ctx') /\
  (schema_host_fit cfg_http purl_long_query ->
   0 < len (field_data purl_long_query UF_PATH) < CONFIG_REQUESTS_URL_LEN cfg_http ->
   CONFIG_REQUESTS_URL_LEN cfg_http <= C.strlen url_long_query ->
   requests_url_parser cfg_http (fun _ => (0%Z, purl_long_query))
     (memset_ctx cfg_http) url_long_query
   = OutOfBounds (S (C.strlen url_long_query)) (CONFIG_REQUESTS_URL_LEN cfg_http)) /\
  (schema_host_fit cfg_http purl_long_query ->
   uri_in_bounds cfg_http url_long_query purl_long_query ->
   exists ctx', requests_url_parser cfg_http (fun _ => (0%Z, purl_long_query))
                  (memset_ctx cfg_http) url_long_query = Returned 0 ctx').
Proof.
  assert (Hc : config_ok cfg_http) by (repeat split; by_computation).
  assert (Ha : arrays_ok cfg_http (memset_ctx cfg_http)) by (repeat split; by_computation).
  split; [repeat split; try assumption; by_computation|].
  apply (requests_url_parser_outcomes cfg_http (fun _ => (0%Z, purl_long_query))
           (memset_ctx cfg_http) url_long_query 0%Z purl_long_query);
    [exact Hc | exact Ha | reflexivity | lia].
Defined.

(** A URL that does not overrun the uri array makes the parser return. *)
Lemma requests_url_parser_returns cfg parse ctx url r purl :
  config_ok cfg -> arrays_ok cfg ctx ->
  parse url = (r, purl) ->
  uri_in_bounds cfg url purl ->
  exists r' ctx', requests_url_parser cfg parse ctx url = Returned r' ctx'.
Proof.
  intros Hcfg Harr Hparse Hin.
  destruct (Z.ltb_spec r 0) as [Hneg|Hr].
  - unfold requests_url_parser. rewrite Hparse.
    replace (r <? 0)%Z with true by (symmetry; apply Z.ltb_lt; lia).
    do 2 eexists. reflexivity.
  - assert (D : schema_host_fit cfg purl \/ ~ schema_host_fit cfg purl)
      by (unfold schema_host_fit; lia).
    destruct D as [Hfit|Hnot].
    + rewrite (requests_url_parser_eq _ _ _ _ _ _ Hcfg Harr Hparse Hr Hfit). cbv zeta.
      rewrite (uri_in_bounds_no_overrun _ _ _ Hin). do 2 eexists. reflexivity.
    + destruct (requests_url_parser_rejects cfg parse ctx url r purl
                  Hcfg Harr Hparse Hr Hnot) as [c Hc].
      rewrite Hc. do 2 eexists. reflexivity.
Qed.

(** X4. A port field of six bytes or more does not fit [port_ascii]: on a
    URL that parses, whose schema and host fit and which does not overrun
    the uri array, the parser drops it, returns 0 and stores the build's
    default port. *)
Theorem requests_url_parser_long_port_defaults cfg parse ctx url r purl :
  config_ok cfg -> arrays_ok cfg ctx ->
  parse url = (r, purl) -> (0 <= r)%Z ->
  schema_host_fit cfg purl ->
  (0 < len (field_data purl UF_PATH) < CONFIG_REQUESTS_URL_LEN cfg ->
   C.strlen url < CONFIG_REQUESTS_URL_LEN cfg) ->
  PORT_ASCII_LEN <= len (field_data purl UF_PORT) ->
  exists ctx',
    requests_url_parser cfg parse ctx url = Returned 0 ctx' /\
    port (url_fields ctx') = default_port cfg.
Proof.
  intros Hcfg Harr Hparse Hr Hfit Hshort Hlong.
  rewrite (requests_url_parser_eq _ _ _ _ _ _ Hcfg Harr Hparse Hr Hfit). cbv zeta.
  assert (Hno : negb ((len (field_data purl UF_PATH) =? 0)
                      || (CONFIG_REQUESTS_URL_LEN cfg <=? len (field_data purl UF_PATH)))
                && (CONFIG_REQUESTS_URL_LEN cfg <=? C.strlen url) = false).
  { destruct (Nat.eqb_spec (len (field_data purl UF_PATH)) 0) as [|Hn0];
      [reflexivity|].
    destruct (Nat.leb_spec (CONFIG_REQUESTS_URL_LEN cfg)
                (len (field_data purl UF_PATH))) as [|Hlt]; [reflexivity|].
    cbn [orb negb andb]. apply Nat.leb_gt. apply Hshort. lia. }
  rewrite Hno. eexists. split; [reflexivity|].
  cbn [parsed_ctx set_url_fields url_fields port]. unfold parsed_port.
  replace (PORT_ASCII_LEN <=? len (field_data purl UF_PORT)) with true
    by (symmetry; apply Nat.leb_le; assumption).
  now rewrite orb_true_r.
Qed.

Lemma requests_url_parser_long_port_defaults_witness :
  (config_ok cfg_http /\ arrays_ok cfg_http (memset_ctx cfg_http) /\
   schema_host_fit cfg_http purl_long_port /\
   C.strlen url_long_port < CONFIG_REQUESTS_URL_LEN cfg_http /\
   url_field_text url_long_port purl_long_port UF_PORT = bytes "000081" /\
   PORT_ASCII_LEN <= len (field_data purl_long_port UF_PORT)) /\
  exists ctx',
    requests_url_parser cfg_http (fun _ => (0%Z, purl_long_port))
      (memset_ctx cfg_http) url_long_port = Returned 0 ctx' /\
    port (url_fields ctx') = default_port cfg_http.
Proof.
  assert (Hc : config_ok cfg_http) by (repeat split; by_computation).
  assert (Ha : arrays_ok cfg_http (memset_ctx cfg_http)) by (repeat split; by_computation).
  assert (Hf : schema_host_fit cfg_http purl_long_port) by (repeat split; by_computation).
  assert (Hs : C.strlen url_long_port < CONFIG_REQUESTS_URL_LEN cfg_http) by by_computation.
  assert (Hp : PORT_ASCII_LEN <= len (field_data purl_long_port UF_PORT)) by by_computation.
  split; [repeat split; try assumption; by_computation|].
  apply (requests_url_parser_long_port_defaults cfg_http (fun _ => (0%Z, purl_long_port))
           (memset_ctx cfg_http) url_long_port 0%Z purl_long_port);
    [exact Hc | exact Ha | reflexivity | lia | exact Hf | intros _; exact Hs | exact Hp].
Defined.

Lemma cstr_split m :
  exists rest, m = C.cstr m ++ rest /\ (rest = [] \/ exists t, rest = C.NUL :: t).
Proof.
  induction m as [|c m IH]; simpl.
  - exists []. split; [reflexivity | now left].
  - destruct (C.is_nul c) eqn:E.
    + exists (c :: m). split; [reflexivity|]. right. exists m.
      unfold C.is_nul in E. apply Ascii.eqb_eq in E. now subst.
    + destruct IH as (rest & Hm & Hrest). exists rest. split; [|assumption].
      simpl. now rewrite <- Hm.
Qed.

Lemma Forall_skipn_clean n (a : list ascii) :
  Forall (fun c => C.is_nul c = false) a ->
  Forall (fun c => C.is_nul c = false) (skipn n a).
Proof.
  intros H. rewrite <- (firstn_skipn n a) in H.
  apply Forall_app in H. tauto.
Qed.

(** Reading [strlen(m)] bytes from [m + o], then a NUL: as a string, what is
    left of [m] from offset [o] on. *)
Lemma cstr_read_rest m o tail :
  o <= C.strlen m ->
  C.cstr (C.read m o (C.strlen m) ++ C.NUL :: tail) = skipn o (C.cstr m).
Proof.
  intros Ho. unfold C.strlen in *.
  destruct (cstr_split m) as (rest & Hm & Hrest).
  set (a := C.cstr m) in *. set (n := length a) in *.
  unfold C.read. rewrite Hm at 1.
  rewrite skipn_app. replace (o - length a) with 0 by (fold n; lia).
  cbn [skipn]. rewrite <- app_assoc, firstn_app.
  rewrite (firstn_all2 (skipn o a)) by (rewrite length_skipn; fold n; lia).
  rewrite length_skipn. fold n. rewrite <- app_assoc.
  assert (Hx : exists t, firstn (n - (n - o)) (rest ++ repeat C.NUL n)
                           ++ C.NUL :: tail = C.NUL :: t).
  { destruct (n - (n - o)) as [|k]; [eexists; reflexivity|].
    destruct Hrest as [->|[t ->]].
    - destruct n as [|n']; [eexists; reflexivity|]. eexists. reflexivity.
    - eexists. reflexivity. }
  destruct Hx as [t Hx]. rewrite Hx.
  apply CFacts.cstr_clean_app_nul, Forall_skipn_clean. apply CFacts.cstr_no_nul.
Qed.

(** X5. The uri a URL with a path gets: everything from where the path
    starts to the end of the URL, the query and the fragment included. *)
Theorem requests_url_parser_uri_is_rest_of_url cfg parse ctx url r purl :
  config_ok cfg -> arrays_ok cfg ctx ->
  parse url = (r, purl) -> (0 <= r)%Z ->
  schema_host_fit cfg purl ->
  0 < len (field_data purl UF_PATH) < CONFIG_REQUESTS_URL_LEN cfg ->
  C.strlen url < CONFIG_REQUESTS_URL_LEN cfg ->
  off (field_data purl UF_PATH) <= C.strlen url ->
  exists ctx',
    requests_url_parser cfg parse ctx url = Returned 0 ctx' /\
    C.cstr (uri (url_fields ctx')) = skipn (off (field_data purl UF_PATH)) (C.cstr url).
Proof.
  intros Hcfg Harr Hparse Hr Hfit [Hp0 Hp1] Hshort Hoff.
  rewrite (requests_url_parser_eq _ _ _ _ _ _ Hcfg Harr Hparse Hr Hfit). cbv zeta.
  replace (CONFIG_REQUESTS_URL_LEN cfg <=? C.strlen url) with false
    by (symmetry; apply Nat.leb_gt; lia).
  rewrite andb_false_r. eexists. split; [reflexivity|].
  cbn [parsed_ctx set_url_fields url_fields uri]. unfold parsed_uri.
  replace (len (field_data purl UF_PATH) =? 0) with false
    by (symmetry; apply Nat.eqb_neq; lia).
  replace (CONFIG_REQUESTS_URL_LEN cfg <=? len (field_data purl UF_PATH)) with false
    by (symmetry; apply Nat.leb_gt; lia).
  cbn [orb]. now apply cstr_read_rest.
Qed.

Lemma requests_url_parser_uri_is_rest_of_url_witness :
  (config_ok cfg_http /\ arrays_ok cfg_http (memset_ctx cfg_http) /\
   schema_host_fit cfg_http purl_with_query /\
   0 < len (field_data purl_with_query UF_PATH) < CONFIG_REQUESTS_URL_LEN cfg_http /\
   C.strlen url_with_query < CONFIG_REQUESTS_URL_LEN cfg_http /\
   off (field_data purl_with_query UF_PATH) <= C.strlen url_with_query /\
   skipn (off (field_data purl_with_query UF_PATH)) (C.cstr url_with_query)
   = bytes "/a/b?x=1#top") /\
  exists ctx',
    requests_url_parser cfg_http (fun _ => (0%Z, purl_with_query))
      (memset_ctx cfg_http) url_with_query = Returned 0 ctx' /\
    C.cstr (uri (url_fields ctx'))
    = skipn (off (field_data purl_with_query UF_PATH)) (C.cstr url_with_query).
Proof.
  assert (Hc : config_ok cfg_http) by (repeat split; by_computation).
  assert (Ha : arrays_ok cfg_http (memset_ctx cfg_http)) by (repeat split; by_computation).
  assert (Hf : schema_host_fit cfg_http purl_with_query) by (repeat split; by_computation).
  assert (Hp : 0 < len (field_data purl_with_query UF_PATH)
               < CONFIG_REQUESTS_URL_LEN cfg_http) by (split; by_computation).
  assert (Hs : C.strlen url_with_query < CONFIG_REQUESTS_URL_LEN cfg_http)
    by by_computation.
  assert (Ho : off (field_data purl_with_query UF_PATH) <= C.strlen url_with_query)
    by by_computation.
  split; [repeat split; try assumption; by_computation|].
  apply (requests_url_parser_uri_is_rest_of_url cfg_http
           (fun _ => (0%Z, purl_with_query)) (memset_ctx cfg_http)
           url_with_query 0%Z purl_with_query);
    [exact Hc | exact Ha | reflexivity | lia | exact Hf | exact Hp | exact Hs | exact Ho].
Defined.

(** Where the parser returns, it has written nothing of the context but
    the URL fields. *)
Lemma requests_url_parser_returned_frame cfg parse ctx url r ctx' :
  requests_url_parser cfg parse ctx url = Returned r ctx' ->
  ctx' = set_url_fields ctx (url_fields ctx').
Proof.
  unfold requests_url_parser.
  destruct (parse url) as [r0 purl].
  repeat match goal with
         | |- context [match ?x with _ => _ end] => destruct x
         end;
    intros H; inversion H; subst; try reflexivity;
    match goal with |- ?c = set_url_fields ?c _ => destruct c; reflexivity end.
Qed.

(** X6. On a URL that does not make it store past the uri array, the parser
    returns, with 0 or with an error, and has written nothing of the context
    but the URL fields. *)
Theorem requests_url_parser_frame cfg parse ctx url r purl :
  config_ok cfg -> arrays_ok cfg ctx ->
  parse url = (r, purl) ->
  uri_in_bounds cfg url purl ->
  exists r' ctx',
    requests_url_parser cfg parse ctx url = Returned r' ctx' /\
    ctx' = set_url_fields ctx (url_fields ctx').
Proof.
  intros Hcfg Harr Hparse Hin.
  destruct (requests_url_parser_returns cfg parse ctx url r purl
              Hcfg Harr Hparse Hin) as (r' & ctx' & H).
  exists r', ctx'. split; [exact H|].
  exact (requests_url_parser_returned_frame cfg parse ctx url r' ctx' H).
Qed.

Lemma requests_url_parser_frame_witness :
  (config_ok cfg_http /\ arrays_ok cfg_http (memset_ctx cfg_http) /\
   uri_in_bounds cfg_http url_with_query purl_with_query) /\
  exists r' ctx',
    requests_url_parser cfg_http (fun _ => (0%Z, purl_with_query))
      (memset_ctx cfg_http) url_with_query = Returned r' ctx' /\
    ctx' = set_url_fields (memset_ctx cfg_http) (url_fields ctx').
Proof.
  assert (Hc : config_ok cfg_http) by (repeat split; by_computation).
  assert (Ha : arrays_ok cfg_http (memset_ctx cfg_http)) by (repeat split; by_computation).
  assert (Hi : uri_in_bounds cfg_http url_with_query purl_with_query)
    by (intros _; by_computation).
  split; [auto|].
  exact (requests_url_parser_frame cfg_http (fun _ => (0%Z, purl_with_query))
           (memset_ctx cfg_http) url_with_query 0%Z purl_with_query
           Hc Ha eq_refl Hi).
Defined.

(* ================================================================== *)
(** ** More on the readiness gate and [requests_init] *)
(* ================================================================== *)

Lemma take_ipv4_wait_timeout evs : forall st,
  ipv4_wait st = 0 ->
  forallb (fun e => negb (is_L4_CONNECTED e)) evs = true ->
  take_ipv4_wait evs st = ((- C.EAGAIN)%Z, st).
Proof.
  unfold take_ipv4_wait.
  induction evs as [|e evs IH]; intros st Hst Hno; cbn [k_sem_take]; rewrite Hst.
  - reflexivity.
  - cbn [forallb] in Hno. apply andb_prop in Hno. destruct Hno as [He Hno].
    destruct e; try discriminate He; cbn [net_event_l4_handler]; now apply IH.
Qed.

(** X7. While the link does not come up (no NET_EVENT_L4_CONNECTED before
    the timeout), the lookup returns -EAGAIN and has issued no query: the
    context and the semaphores are as before, whatever the resolver would
    have answered. *)
Theorem requests_dns_lookup_link_timeout nh ctx st :
  C.strlen (hostname (url_fields ctx)) <> 0 ->
  ipv4_wait st = 0 ->
  forallb (fun e => negb (is_L4_CONNECTED e)) (l4_events nh) = true ->
  requests_dns_lookup nh (ctx, st) = ((- C.EAGAIN)%Z, (ctx, st)).
Proof.
  intros Hname Hst Hno. unfold requests_dns_lookup.
  replace (C.strlen (hostname (url_fields ctx)) =? 0) with false
    by (symmetry; now apply Nat.eqb_neq).
  rewrite (take_ipv4_wait_timeout _ _ Hst Hno). reflexivity.
Qed.

Lemma requests_dns_lookup_link_timeout_witness :
  (C.strlen (hostname (url_fields ctx_example_com)) <> 0 /\
   ipv4_wait statics_init = 0) /\
  requests_dns_lookup
    {| l4_events := [NET_EVENT_L4_DISCONNECTED; NET_EVENT_OTHER];
       dns_get_addr_info_ret := 0;
       dns_events := [result_of addr_a; alldone] |}
    (ctx_example_com, statics_init)
  = ((- C.EAGAIN)%Z, (ctx_example_com, statics_init)).
Proof.
  assert (Hn : C.strlen (hostname (url_fields ctx_example_com)) <> 0)
    by (vm_compute; discriminate).
  split; [split; [exact Hn | reflexivity]|].
  apply (requests_dns_lookup_link_timeout
           {| l4_events := [NET_EVENT_L4_DISCONNECTED; NET_EVENT_OTHER];
              dns_get_addr_info_ret := 0;
              dns_events := [result_of addr_a; alldone] |}
           ctx_example_com statics_init Hn); reflexivity.
Defined.

(** X8. The lookup writes [sa] and [err] and nothing else of the context:
    put back, they give the context it was called on. *)
Theorem requests_dns_lookup_frame nh ctx st :
  set_err (set_sa (fst (snd (requests_dns_lookup nh (ctx, st)))) (sa ctx)) (err ctx)
  = ctx.
Proof.
  pose proof (requests_dns_lookup_keeps
                (fun c => set_err (set_sa c (sa ctx)) (err ctx)) nh (ctx, st)
                (fun _ _ => eq_refl) (fun _ _ => eq_refl)) as H.
  cbv beta in H. rewrite H. cbn [fst]. destruct ctx; reflexivity.
Qed.

Lemma requests_url_parser_keeps {A} (f : requests_ctx -> A) cfg parse ctx url r ctx' :
  (forall c u, f (set_url_fields c u) = f c) ->
  requests_url_parser cfg parse ctx url = Returned r ctx' ->
  f ctx' = f ctx.
Proof.
  intros Hf. unfold requests_url_parser.
  destruct (parse url) as [r0 purl].
  repeat match goal with
         | |- context [match ?x with _ => _ end] => destruct x
         end;
    intros H; inversion H; subst; rewrite ?Hf; reflexivity.
Qed.

(** What [requests_init] returns, through its two steps. *)
Lemma requests_init_steps cfg parse nh st url r ctx st' :
  requests_init cfg parse nh st url = (Returned r ctx, st') ->
  exists r1 ctx1,
    requests_url_parser cfg parse (requests_init_ctx cfg) url = Returned r1 ctx1 /\
    ((r1 < 0)%Z /\ ctx = ctx1 /\ r = r1 /\ st' = st \/
     (0 <= r1)%Z /\
     ctx = fst (snd (requests_dns_lookup nh (ctx1, st))) /\
     st' = snd (snd (requests_dns_lookup nh (ctx1, st))) /\
     (r = fst (requests_dns_lookup nh (ctx1, st)) /\ (r < 0)%Z \/
      r = 0%Z /\ (0 <= fst (requests_dns_lookup nh (ctx1, st)))%Z)).
Proof.
  unfold requests_init.
  change (if CONFIG_REQUESTS_SSL_VERIFYPEER cfg
          then set_is_ssl_verifypeer
                 (if CONFIG_REQUESTS_SSL_VERIFYHOST cfg
                  then set_is_ssl_verifyhost (memset_ctx cfg) true
                  else memset_ctx cfg) true
          else if CONFIG_REQUESTS_SSL_VERIFYHOST cfg
               then set_is_ssl_verifyhost (memset_ctx cfg) true
               else memset_ctx cfg) with (requests_init_ctx cfg).
  destruct (requests_url_parser cfg parse (requests_init_ctx cfg) url)
    as [r1 ctx1|]; [|discriminate].
  intros H. exists r1, ctx1. split; [reflexivity|]. revert H.
  destruct (Z.ltb_spec r1 0) as [Hlt|Hge].
  - intros H. inversion H; subst. left. tauto.
  - destruct (requests_dns_lookup nh (ctx1, st)) as [r2 [ctx2 st2]].
    cbn [fst snd].
    destruct (Z.ltb_spec r2 0) as [Hlt2|Hge2]; intros H; inversion H; subst;
      right; (split; [assumption|]); (split; [reflexivity|]); (split; [reflexivity|]).
    + left. split; [reflexivity | assumption].
    + right. split; [reflexivity | assumption].
Qed.

(** Every context the model's [requests_init] returns is a fresh one. *)
Lemma requests_init_returned_options cfg parse nh st url r ctx st' :
  requests_init cfg parse nh st url = (Returned r ctx, st') ->
  is_ssl_verifyhost ctx = CONFIG_REQUESTS_SSL_VERIFYHOST cfg /\
  is_ssl_verifypeer ctx = CONFIG_REQUESTS_SSL_VERIFYPEER cfg /\
  headers ctx = None /\ cb ctx = None /\
  payload_size ctx = 0%Z /\ status_code ctx = 0%Z /\
  C.cstr (payload ctx) = [] /\ C.cstr (protocol ctx) = [].
Proof.
  intros H. apply requests_init_steps in H.
  destruct H as (r1 & ctx1 & Hp & Hcase).
  set (f := fun c : requests_ctx =>
              (is_ssl_verifyhost c, is_ssl_verifypeer c, headers c, cb c,
               payload_size c, status_code c, payload c, protocol c)).
  assert (H1 : f ctx1 = f (requests_init_ctx cfg)).
  { apply (requests_url_parser_keeps f cfg parse _ url r1 ctx1); [reflexivity | exact Hp]. }
  assert (H2 : f ctx = f ctx1).
  { destruct Hcase as [(_ & -> & _)|(_ & -> & _)]; [reflexivity|].
    apply (requests_dns_lookup_keeps f nh (ctx1, st)); reflexivity. }
  rewrite H1 in H2. unfold f in H2.
  injection H2 as E1 E2 E3 E4 E5 E6 E7 E8.
  rewrite E1, E2, E3, E4, E5, E6, E7, E8.
  unfold requests_init_ctx.
  destruct (CONFIG_REQUESTS_SSL_VERIFYHOST cfg), (CONFIG_REQUESTS_SSL_VERIFYPEER cfg);
    cbn; repeat split; destruct (NET_IPV4_MTU cfg); reflexivity.
Qed.

Lemma requests_init_ctx_arrays_ok cfg : arrays_ok cfg (requests_init_ctx cfg).
Proof.
  unfold requests_init_ctx, arrays_ok.
  destruct (CONFIG_REQUESTS_SSL_VERIFYHOST cfg), (CONFIG_REQUESTS_SSL_VERIFYPEER cfg);
    cbn; unfold C.zeros; rewrite !repeat_length; repeat split.
Qed.

(** On a URL that does not overrun the uri array, [requests_init] returns. *)
Lemma requests_init_returns cfg parse nh st url r0 purl :
  config_ok cfg ->
  parse url = (r0, purl) ->
  uri_in_bounds cfg url purl ->
  exists r ctx st', requests_init cfg parse nh st url = (Returned r ctx, st').
Proof.
  intros Hcfg Hparse Hin.
  destruct (requests_url_parser_returns cfg parse (requests_init_ctx cfg) url r0 purl
              Hcfg (requests_init_ctx_arrays_ok cfg) Hparse Hin) as (r1 & ctx1 & Hp).
  unfold requests_init.
  change (if CONFIG_REQUESTS_SSL_VERIFYPEER cfg
          then set_is_ssl_verifypeer
                 (if CONFIG_REQUESTS_SSL_VERIFYHOST cfg
                  then set_is_ssl_verifyhost (memset_ctx cfg) true
                  else memset_ctx cfg) true
          else if CONFIG_REQUESTS_SSL_VERIFYHOST cfg
               then set_is_ssl_verifyhost (memset_ctx cfg) true
               else memset_ctx cfg) with (requests_init_ctx cfg).
  rewrite Hp.
  destruct (r1 <? 0)%Z; [do 3 eexists; reflexivity|].
  destruct (requests_dns_lookup nh (ctx1, st)) as [r2 [ctx2 st2]].
  destruct (r2 <? 0)%Z; do 3 eexists; reflexivity.
Qed.

(** X10. On a URL that does not make the parser store past the uri array,
    [requests_init] returns, with 0 or with an error, and the context it
    leaves is a fresh one: the two verification flags are the build's
    defaults, and no header, handler, payload, protocol, payload size or
    status is left from before. *)
Theorem requests_init_resets_options cfg parse nh st url r0 purl :
  config_ok cfg ->
  parse url = (r0, purl) ->
  uri_in_bounds cfg url purl ->
  exists r ctx st',
    requests_init cfg parse nh st url = (Returned r ctx, st') /\
    is_ssl_verifyhost ctx = CONFIG_REQUESTS_SSL_VERIFYHOST cfg /\
    is_ssl_verifypeer ctx = CONFIG_REQUESTS_SSL_VERIFYPEER cfg /\
    headers ctx = None /\ cb ctx = None /\
    payload_size ctx = 0%Z /\ status_code ctx = 0%Z /\
    C.cstr (payload ctx) = [] /\ C.cstr (protocol ctx) = [].
Proof.
  intros Hcfg Hparse Hin.
  destruct (requests_init_returns cfg parse nh st url r0 purl Hcfg Hparse Hin)
    as (r & ctx & st' & H).
  exists r, ctx, st'. split; [exact H|].
  exact (requests_init_returned_options cfg parse nh st url r ctx st' H).
Qed.

Lemma requests_init_resets_options_witness :
  (config_ok cfg_tls /\ uri_in_bounds cfg_tls url_https_8443 purl_https_8443) /\
  exists r ctx st',
    requests_init cfg_tls (fun _ => (0%Z, purl_https_8443))
      (net_up [result_of addr_a; alldone]) statics_init url_https_8443
    = (Returned r ctx, st') /\
    is_ssl_verifyhost ctx = CONFIG_REQUESTS_SSL_VERIFYHOST cfg_tls /\
    is_ssl_verifypeer ctx = CONFIG_REQUESTS_SSL_VERIFYPEER cfg_tls /\
    headers ctx = None /\ cb ctx = None /\
    payload_size ctx = 0%Z /\ status_code ctx = 0%Z /\
    C.cstr (payload ctx) = [] /\ C.cstr (protocol ctx) = [].
Proof.
  assert (Hc : config_ok cfg_tls) by (repeat split; by_computation).
  assert (Hi : uri_in_bounds cfg_tls url_https_8443 purl_https_8443)
    by (intros _; by_computation).
  split; [auto|].
  exact (requests_init_resets_options cfg_tls (fun _ => (0%Z, purl_https_8443))
           (net_up [result_of addr_a; alldone]) statics_init url_https_8443
           0%Z purl_https_8443 Hc eq_refl Hi).
Defined.

(** X9. When the URL parses, the link is up, the DNS semaphore is at 0 and
    the query is accepted, but the resolver never reports all-done before
    the timeout (it failed, was cancelled, had no data, or went silent),
    [requests_init] returns -EAGAIN, also when addresses had been
    delivered. *)
Theorem requests_init_dns_timeout cfg parse nh st st1 url r1 ctx1 :
  requests_url_parser cfg parse (requests_init_ctx cfg) url = Returned r1 ctx1 ->
  (0 <= r1)%Z ->
  C.strlen (hostname (url_fields ctx1)) <> 0 ->
  dns_wait st = 0 ->
  take_ipv4_wait (l4_events nh) st = (0%Z, st1) ->
  (0 <= dns_get_addr_info_ret nh)%Z ->
  forallb (fun e => negb (is_ALLDONE (fst e))) (dns_events nh) = true ->
  exists ctx' st',
    requests_init cfg parse nh st url = (Returned (- C.EAGAIN) ctx', st').
Proof.
  intros Hp Hr Hname Hst Hlink Hq Hno.
  assert (Hst1 : dns_wait st1 = 0).
  { pose proof (take_ipv4_wait_dns_wait (l4_events nh) st) as H.
    rewrite Hlink in H. simpl in H. congruence. }
  assert (Hnone : until_alldone (dns_events nh) = None).
  { clear -Hno. induction (dns_events nh) as [|e evs IH]; [reflexivity|].
    cbn [forallb] in Hno. apply andb_prop in Hno. destruct Hno as [He Hno].
    cbn [until_alldone]. apply negb_true_iff in He. rewrite He.
    now rewrite (IH Hno). }
  pose proof (take_dns_wait_eq (dns_events nh) ctx1 st1 Hst1) as Hwait.
  rewrite Hnone in Hwait.
  unfold requests_init. fold (requests_init_ctx cfg).
  change (if CONFIG_REQUESTS_SSL_VERIFYPEER cfg
          then set_is_ssl_verifypeer
                 (if CONFIG_REQUESTS_SSL_VERIFYHOST cfg
                  then set_is_ssl_verifyhost (memset_ctx cfg) true
                  else memset_ctx cfg) true
          else if CONFIG_REQUESTS_SSL_VERIFYHOST cfg
               then set_is_ssl_verifyhost (memset_ctx cfg) true
               else memset_ctx cfg) with (requests_init_ctx cfg).
  rewrite Hp.
  replace (r1 <? 0)%Z with false by (symmetry; apply Z.ltb_ge; lia).
  unfold requests_dns_lookup.
  replace (C.strlen (hostname (url_fields ctx1)) =? 0) with false
    by (symmetry; now apply Nat.eqb_neq).
  rewrite Hlink. cbn [Z.ltb Z.compare].
  replace (dns_get_addr_info_ret nh <? 0)%Z with false
    by (symmetry; apply Z.ltb_ge; lia).
  destruct (take_dns_wait (dns_events nh) (ctx1, st1)) as [r [ctx2 st2]].
  simpl in Hwait. subst r. cbn. do 2 eexists. reflexivity.
Qed.

Lemma requests_init_dns_timeout_witness :
  (requests_url_parser cfg_http (fun _ => (0%Z, purl_http_example))
     (requests_init_ctx cfg_http) url_http_example = Returned 0 ctx_example_com /\
   C.strlen (hostname (url_fields ctx_example_com)) <> 0 /\
   dns_wait statics_init = 0) /\
  exists ctx' st',
    requests_init cfg_http (fun _ => (0%Z, purl_http_example))
      (net_up [result_of addr_a; (DNS_EAI_FAIL, None)]) statics_init url_http_example
    = (Returned (- C.EAGAIN) ctx', st').
Proof.
  assert (Hp : requests_url_parser cfg_http (fun _ => (0%Z, purl_http_example))
                 (requests_init_ctx cfg_http) url_http_example
               = Returned 0 ctx_example_com) by (vm_compute; reflexivity).
  assert (Hn : C.strlen (hostname (url_fields ctx_example_com)) <> 0)
    by (vm_compute; discriminate).
  split; [split; [exact Hp | split; [exact Hn | reflexivity]]|].
  apply (requests_init_dns_timeout cfg_http (fun _ => (0%Z, purl_http_example))
           (net_up [result_of addr_a; (DNS_EAI_FAIL, None)])
           statics_init statics_init url_http_example 0%Z ctx_example_com);
    [exact Hp | lia | exact Hn | reflexivity | reflexivity | cbn; lia | reflexivity].
Defined.

(** X11. On a URL that does not make the parser store past the uri array,
    [requests_init] returns, with 0 or with an error, and is_ssl is false in
    the context it leaves, whatever the schema of the URL: no path through
    [requests_init] sets it. *)
Theorem requests_init_never_sets_is_ssl cfg parse nh st url r0 purl :
  config_ok cfg ->
  parse url = (r0, purl) ->
  uri_in_bounds cfg url purl ->
  exists r ctx st',
    requests_init cfg parse nh st url = (Returned r ctx, st') /\
    is_ssl (url_fields ctx) = false.
Proof.
  intros Hcfg Hparse Hin.
  destruct (requests_init_returns cfg parse nh st url r0 purl Hcfg Hparse Hin)
    as (r & ctx & st' & H).
  exists r, ctx, st'. split; [exact H|].
  exact (requests_init_is_ssl cfg parse nh st url r ctx st' H).
Qed.

Lemma requests_init_never_sets_is_ssl_witness :
  (config_ok cfg_tls /\ uri_in_bounds cfg_tls url_https_example purl_https_example) /\
  exists r ctx st',
    requests_init cfg_tls (fun _ => (0%Z, purl_https_example))
      (net_up [result_of addr_a; alldone]) statics_init url_https_example
    = (Returned r ctx, st') /\
    is_ssl (url_fields ctx) = false.
Proof.
  assert (Hc : config_ok cfg_tls) by (repeat split; by_computation).
  assert (Hi : uri_in_bounds cfg_tls url_https_example purl_https_example)
    by (intros _; by_computation).
  split; [auto|].
  exact (requests_init_never_sets_is_ssl cfg_tls (fun _ => (0%Z, purl_https_example))
           (net_up [result_of addr_a; alldone]) statics_init url_https_example
           0%Z purl_https_example Hc eq_refl Hi).
Defined.

(* ================================================================== *)
(** ** More on connection and execute *)
(* ================================================================== *)

Lemma requests_closes_once_after_setup_witness :
  ((0 <= answer host_connect_refused (sys_socket (socket_proto cfg_tls)))%Z /\
   (0 <= fst (fst (requests_connect_setup cfg_tls host_connect_refused
                     (requests_init_ctx cfg_tls) [])))%Z) /\
  closes 3 (snd (requests cfg_tls host_connect_refused
                   (Some (requests_init_ctx cfg_tls)) HTTP_GET [])) = 1.
Proof.
  split; [split; cbn; lia|].
  apply (requests_closes_once_after_setup cfg_tls host_connect_refused
           (requests_init_ctx cfg_tls) HTTP_GET); cbn; lia.
Defined.

(** X13. When the connection step fails, whatever the reason, [requests]
    returns -ECONNABORTED and the exchange is not started: the transport,
    and so the response handler, is never called. *)
Theorem requests_no_exchange_without_connection cfg h ctx method :
  (fst (fst (requests_connect cfg h ctx [])) < 0)%Z ->
  fst (fst (requests cfg h (Some ctx) method [])) = (- C.ECONNABORTED)%Z /\
  http_requests (snd (requests cfg h (Some ctx) method [])) = [].
Proof.
  run_c.
  destruct (CONFIG_NET_SOCKETS_SOCKOPT_TLS cfg);
    destruct (is_ssl_verifyhost ctx); destruct (is_ssl_verifypeer ctx);
    case_conditions; cbn in *; intros; split; try reflexivity; try lia.
Qed.

Lemma requests_no_exchange_without_connection_witness :
  (fst (fst (requests_connect cfg_http host_connect_refused ctx_example_com [])) < 0)%Z /\
  fst (fst (requests cfg_http host_connect_refused (Some ctx_example_com) HTTP_GET []))
  = (- C.ECONNABORTED)%Z /\
  http_requests (snd (requests cfg_http host_connect_refused
                        (Some ctx_example_com) HTTP_GET [])) = [].
Proof.
  split; [cbn; lia|].
  apply (requests_no_exchange_without_connection cfg_http host_connect_refused
           ctx_example_com HTTP_GET); cbn; lia.
Defined.

(** X14. When the setup and [connect] succeed, [requests] connects the socket
    to the resolved address at the parsed port, hands the transport the
    descriptor built from the context, closes the socket, and returns what
    the transport returned. *)
Theorem requests_exchange cfg h ctx method :
  let fd := answer h (sys_socket (socket_proto cfg)) in
  let sa_in := {| sin_family := AF_INET;
                  sin_port := port (url_fields ctx);
                  sin_addr := sin_addr (sa ctx) |} in
  let ctx' := set_sa (set_sockfd ctx fd) sa_in in
  (0 <= fd)%Z ->
  (0 <= fst (fst (requests_connect_setup cfg h ctx [])))%Z ->
  (0 <= answer h (sys_connect fd sa_in))%Z ->
  requests cfg h (Some ctx) method [] =
    ((answer h (sys_http_client_req fd (build_request ctx' method)), Some ctx'),
     snd (requests_connect_setup cfg h ctx []) ++
     [sys_connect fd sa_in;
      sys_http_client_req fd (build_request ctx' method);
      sys_close fd]).
Proof.
  intros fd sa_in ctx'. subst fd sa_in ctx'. unfold socket_proto. run_c.
  destruct (CONFIG_NET_SOCKETS_SOCKOPT_TLS cfg);
    destruct (is_ssl_verifyhost ctx); destruct (is_ssl_verifypeer ctx);
    case_conditions; cbn in *; intros; try reflexivity; try lia.
Qed.

Lemma requests_exchange_witness :
  ((0 <= answer host_ok (sys_socket (socket_proto cfg_http)))%Z /\
   (0 <= fst (fst (requests_connect_setup cfg_http host_ok ctx_example_com [])))%Z) /\
  requests cfg_http host_ok (Some ctx_example_com) HTTP_GET [] =
    ((answer host_ok
        (sys_http_client_req 3
           (build_request
              (set_sa (set_sockfd ctx_example_com 3)
                 {| sin_family := AF_INET; sin_port := 80; sin_addr := C.zeros 4 |})
              HTTP_GET)),
      Some (set_sa (set_sockfd ctx_example_com 3)
              {| sin_family := AF_INET; sin_port := 80; sin_addr := C.zeros 4 |})),
     snd (requests_connect_setup cfg_http host_ok ctx_example_com []) ++
     [sys_connect 3 {| sin_family := AF_INET; sin_port := 80; sin_addr := C.zeros 4 |};
      sys_http_client_req 3
        (build_request
           (set_sa (set_sockfd ctx_example_com 3)
              {| sin_family := AF_INET; sin_port := 80; sin_addr := C.zeros 4 |})
           HTTP_GET);
      sys_close 3]).
Proof.
  split; [split; cbn; lia|].
  apply (requests_exchange cfg_http host_ok ctx_example_com HTTP_GET); cbn; lia.
Defined.

(** X15. When [socket] fails, nothing else is called: [requests] returns
    -ECONNABORTED after that one call, with nothing to close. *)
Theorem requests_socket_failure cfg h ctx method :
  (answer h (sys_socket (socket_proto cfg)) < 0)%Z ->
  (0 < errno h)%Z ->
  requests cfg h (Some ctx) method [] =
    ((- C.ECONNABORTED,
      Some (set_sockfd ctx (answer h (sys_socket (socket_proto cfg)))))%Z,
     [sys_socket (socket_proto cfg)]).
Proof.
  unfold socket_proto. run_c. intros Hfd Herr.
  destruct (CONFIG_NET_SOCKETS_SOCKOPT_TLS cfg);
    (replace (answer h (sys_socket _) <? 0)%Z with true
       by (symmetry; apply Z.ltb_lt; lia));
    (replace (- errno h <? 0)%Z with true by (symmetry; apply Z.ltb_lt; lia));
    reflexivity.
Qed.

Lemma requests_socket_failure_witness :
  ((answer host_no_socket (sys_socket (socket_proto cfg_tls)) < 0)%Z /\
   (0 < errno host_no_socket)%Z) /\
  requests cfg_tls host_no_socket (Some (requests_init_ctx cfg_tls)) HTTP_GET [] =
    ((- C.ECONNABORTED,
      Some (set_sockfd (requests_init_ctx cfg_tls)
              (answer host_no_socket (sys_socket (socket_proto cfg_tls)))))%Z,
     [sys_socket (socket_proto cfg_tls)]).
Proof.
  split; [split; cbn; lia|].
  apply (requests_socket_failure cfg_tls host_no_socket
           (requests_init_ctx cfg_tls) HTTP_GET); cbn; lia.
Defined.

(** X16. A build without TLS sockets sets no socket option, whatever the
    verification flags of the context say. *)
Theorem requests_plain_build_sets_no_option cfg h ctx method :
  CONFIG_NET_SOCKETS_SOCKOPT_TLS cfg = false ->
  existsb is_setsockopt (snd (requests cfg h (Some ctx) method [])) = false.
Proof.
  intros Htls. run_c. rewrite Htls.
  case_conditions; reflexivity.
Qed.

Lemma requests_plain_build_sets_no_option_witness :
  CONFIG_NET_SOCKETS_SOCKOPT_TLS cfg_http = false /\
  existsb is_setsockopt
    (snd (requests cfg_http host_ok
            (Some (requests_setopts ctx_example_com
                     [setopt REQUESTS_SSL_VERIFYHOST true;
                      setopt REQUESTS_SSL_VERIFYPEER true]))
            HTTP_GET [])) = false.
Proof.
  split; [reflexivity|].
  apply (requests_plain_build_sets_no_option cfg_http host_ok
           (requests_setopts ctx_example_com
              [setopt REQUESTS_SSL_VERIFYHOST true;
               setopt REQUESTS_SSL_VERIFYPEER true])
           HTTP_GET); reflexivity.
Defined.

(* ================================================================== *)
(** ** More on the option store *)
(* ================================================================== *)

Lemma strncpy_again dst s1 s2 :
  C.strncpy (C.strncpy dst s1 (length dst - 1)) s2 (length dst - 1)
  = C.strncpy dst s2 (length dst - 1).
Proof.
  unfold C.strncpy, C.store.
  set (n := length dst - 1).
  assert (L : forall s, length (firstn n (C.cstr s ++ repeat C.NUL n)) = n).
  { intros s. rewrite length_firstn, length_app, repeat_length. lia. }
  rewrite !L. f_equal.
  rewrite skipn_app, L, Nat.sub_diag.
  rewrite skipn_all2 by (rewrite L; lia). reflexivity.
Qed.

(** X17. Setting REQUESTS_POSTFIELDS or REQUESTS_PROTOCOL again replaces the
    earlier value whole: nothing of a longer earlier string stays behind the
    new one. *)
Theorem requests_setopt_string_replaces ctx (s1 s2 : list ascii) :
  requests_setopt (requests_setopt ctx REQUESTS_POSTFIELDS s1) REQUESTS_POSTFIELDS s2
  = requests_setopt ctx REQUESTS_POSTFIELDS s2 /\
  requests_setopt (requests_setopt ctx REQUESTS_PROTOCOL s1) REQUESTS_PROTOCOL s2
  = requests_setopt ctx REQUESTS_PROTOCOL s2.
Proof.
  cbn [requests_setopt set_payload set_protocol payload protocol].
  rewrite !CFacts.strncpy_length, !strncpy_again. split; reflexivity.
Qed.

(** X18. Options are independent: two calls of [requests_setopt] for
    different options give the same context in either order. *)
Theorem requests_setopt_commute ctx o1 (p1 : parameter o1) o2 (p2 : parameter o2) :
  o1 <> o2 ->
  requests_setopt (requests_setopt ctx o1 p1) o2 p2
  = requests_setopt (requests_setopt ctx o2 p2) o1 p1.
Proof.
  intros Hne. destruct o1, o2; try (exfalso; apply Hne; reflexivity); reflexivity.
Qed.

Lemma requests_setopt_commute_witness :
  REQUESTS_POSTFIELDS <> REQUESTS_PROTOCOL /\
  requests_setopt (requests_setopt ctx_example_com REQUESTS_POSTFIELDS (bytes "hello"))
    REQUESTS_PROTOCOL (bytes "HTTP/1.1")
  = requests_setopt (requests_setopt ctx_example_com REQUESTS_PROTOCOL (bytes "HTTP/1.1"))
      REQUESTS_POSTFIELDS (bytes "hello").
Proof.
  assert (Hne : REQUESTS_POSTFIELDS <> REQUESTS_PROTOCOL) by discriminate.
  split; [exact Hne|].
  exact (requests_setopt_commute ctx_example_com
           REQUESTS_POSTFIELDS (bytes "hello")
           REQUESTS_PROTOCOL (bytes "HTTP/1.1") Hne).
Defined.

(** X19. No option touches what [requests_init] has found: the URL fields,
    the resolved address, the socket and the error are as before any run of
    [requests_setopt] calls. *)
Theorem requests_setopts_keep_target calls : forall ctx,
  url_fields (requests_setopts ctx calls) = url_fields ctx /\
  sa (requests_setopts ctx calls) = sa ctx /\
  sockfd (requests_setopts ctx calls) = sockfd ctx /\
  err (requests_setopts ctx calls) = err ctx.
Proof.
  unfold requests_setopts.
  induction calls as [|[o p] calls IH]; intros ctx; cbn [fold_left].
  - repeat split.
  - destruct (IH (requests_setopt ctx o p)) as (H1 & H2 & H3 & H4).
    cbn [projT1 projT2]. rewrite H1, H2, H3, H4.
    destruct o; repeat split.
Qed.

Lemma requests_setopts_buffers_ok_witness :
  (0 < NET_IPV4_MTU cfg_http /\ buffers_ok cfg_http ctx_example_com) /\
  buffers_ok cfg_http
    (requests_setopts ctx_example_com
       [setopt REQUESTS_PROTOCOL (bytes "HTTP/1.1");
        setopt REQUESTS_POSTFIELDS (repeat "x"%char 600);
        setopt REQUESTS_SSL_VERIFYPEER false]).
Proof.
  assert (Hpos : 0 < NET_IPV4_MTU cfg_http) by (cbn; lia).
  assert (Hok : buffers_ok cfg_http ctx_example_com)
    by (repeat split; vm_compute; reflexivity).
  split; [split; assumption|].
  exact (requests_setopts_buffers_ok cfg_http _ ctx_example_com Hpos Hok).
Defined.

(* ================================================================== *)
(** ** The alif sample: [alif_json_parser] *)
(* ================================================================== *)

Lemma zeros_app a b : C.zeros (a + b) = C.zeros a ++ C.zeros b.
Proof. unfold C.zeros. apply repeat_app. Qed.

(** What a successful call leaves at [out]: the bytes between the key and
    the quote, NULs up to [out_size], and the rest of [out] as it was. *)
Lemma alif_json_parser_writes json out start len out_size :
  len < out_size ->
  C.poke (C.memcpy (C.store out (C.zeros out_size)) json start len) len C.NUL
  = C.read json start len ++ C.zeros (out_size - len) ++ skipn out_size out.
Proof.
  intros Hlen. unfold C.memcpy.
  pose proof (CFacts.poke_store (C.store out (C.zeros out_size))
                (C.read json start len) C.NUL) as P.
  rewrite CFacts.read_length in P. rewrite P. f_equal.
  unfold C.store. rewrite CFacts.zeros_length.
  replace out_size with (S len + (out_size - S len)) at 1 by lia.
  rewrite zeros_app, <- app_assoc, skipn_app, CFacts.zeros_length, Nat.sub_diag.
  rewrite skipn_all2 by (rewrite CFacts.zeros_length; lia).
  cbn [skipn app].
  replace (out_size - len) with (S (out_size - S len)) by lia.
  reflexivity.
Qed.

(** X21. [alif_json_parser] is safe on a buffer of at least [out_size] bytes:
    it never writes past it; it returns 0 or -EINVAL; on -EINVAL (key not
    found, no closing quote, or value too long for [out_size]) the buffer is
    untouched; on 0 the buffer holds a string shorter than [out_size]. *)
Theorem alif_json_parser_safe json key out out_size :
  out_size <= length out ->
  let r := alif_json_parser json key out out_size in
  length (snd r) = length out /\
  (fst r = (- C.EINVAL)%Z /\ snd r = out \/
   fst r = 0%Z /\ C.strlen (snd r) < out_size).
Proof.
  intros Hsize. unfold alif_json_parser.
  destruct (strstr json key) as [i|]; [|split; [reflexivity | now left]].
  destruct (strchr (skipn (i + C.strlen key) json) DQUOTE) as [len|];
    [|split; [reflexivity | now left]].
  destruct (Nat.ltb_spec out_size (len + 1)) as [Hbig|Hfit];
    [split; [reflexivity | now left]|].
  cbn [fst snd]. rewrite alif_json_parser_writes by lia. split.
  - rewrite !length_app, CFacts.read_length, CFacts.zeros_length, length_skipn. lia.
  - right. split; [reflexivity|].
    replace (out_size - len) with (S (out_size - S len)) by lia.
    cbn [C.zeros repeat app]. unfold C.strlen.
    rewrite CFacts.cstr_app_nul.
    pose proof (CFacts.cstr_length_le (C.read json (i + C.strlen key) len)) as Hle.
    rewrite CFacts.read_length in Hle. unfold C.strlen in Hle. lia.
Qed.

Lemma alif_json_parser_safe_witness :
  4 <= length (C.zeros 8) /\
  let r := alif_json_parser json_answer PROMPT_KEY (C.zeros 8) 4 in
  length (snd r) = length (C.zeros 8) /\
  (fst r = (- C.EINVAL)%Z /\ snd r = C.zeros 8 \/
   fst r = 0%Z /\ C.strlen (snd r) < 4).
Proof.
  split; [cbn; lia|].
  apply (alif_json_parser_safe json_answer PROMPT_KEY (C.zeros 8) 4).
  cbn. lia.
Defined.

(** The value that does not fit, and the text that ends before the closing
    quote: -EINVAL, and the buffer as it was. *)
Example alif_json_parser_rejects :
  alif_json_parser json_answer PROMPT_KEY (bytes "old") 3
  = ((- C.EINVAL)%Z, bytes "old") /\
  alif_json_parser json_unclosed PROMPT_KEY (C.zeros 8) 8
  = ((- C.EINVAL)%Z, C.zeros 8) /\
  alif_json_parser (bytes "{}") PROMPT_KEY (C.zeros 8) 8
  = ((- C.EINVAL)%Z, C.zeros 8).
Proof. repeat split. Qed.

Lemma find_char_app v q r :
  Forall (fun c => Ascii.eqb c q = false) v ->
  find_char (v ++ q :: r) q = Some (length v).
Proof.
  induction 1 as [|c v Hc _ IH]; cbn [find_char app length].
  - now rewrite Ascii.eqb_refl.
  - now rewrite Hc, IH.
Qed.

Lemma cstr_clean_then_rest a rest :
  Forall (fun c => C.is_nul c = false) a ->
  rest = [] \/ (exists t, rest = C.NUL :: t) ->
  C.cstr (a ++ rest) = a.
Proof.
  intros Ha [->|[t ->]].
  - rewrite app_nil_r. now apply CFacts.cstr_clean.
  - now apply CFacts.cstr_clean_app_nul.
Qed.

(** X22. The value [alif_json_parser] extracts: when the first occurrence of
    the key in the text is followed by [value], free of double quotes, and a
    double quote, and [value] is shorter than [out_size], the call returns 0
    and leaves [value] at [out], followed by NULs up to [out_size]. *)
Theorem alif_json_parser_value json key out out_size i value rest :
  strstr json key = Some i ->
  skipn i (C.cstr json) = C.cstr key ++ value ++ DQUOTE :: rest ->
  Forall (fun c => Ascii.eqb c DQUOTE = false) value ->
  length value < out_size ->
  alif_json_parser json key out out_size
  = (0%Z, value ++ C.zeros (out_size - length value) ++ skipn out_size out) /\
  C.cstr (value ++ C.zeros (out_size - length value) ++ skipn out_size out) = value.
Proof.
  intros Hfind Hat Hnq Hlen.
  destruct (cstr_split json) as (rest0 & Hjson & Hrest0).
  assert (Hclean : Forall (fun c => C.is_nul c = false) (value ++ DQUOTE :: rest)).
  { pose proof (Forall_skipn_clean i _ (CFacts.cstr_no_nul json)) as H.
    rewrite Hat in H. apply Forall_app in H. tauto. }
  assert (Hvclean : Forall (fun c => C.is_nul c = false) value).
  { apply Forall_app in Hclean. tauto. }
  assert (Hi : i + C.strlen key <= length (C.cstr json)).
  { pose proof (f_equal (@length ascii) Hat) as L.
    rewrite length_skipn, !length_app in L. unfold C.strlen. cbn [length] in L. lia. }
  assert (Hskip : skipn (i + C.strlen key) json = (value ++ DQUOTE :: rest) ++ rest0).
  { rewrite Hjson at 1. rewrite skipn_app.
    replace (i + C.strlen key - length (C.cstr json)) with 0 by lia.
    cbn [skipn]. f_equal.
    rewrite Nat.add_comm, <- skipn_skipn, Hat.
    unfold C.strlen. rewrite skipn_app, Nat.sub_diag, skipn_all. reflexivity. }
  assert (Hchr : strchr (skipn (i + C.strlen key) json) DQUOTE = Some (length value)).
  { unfold strchr. cbn [C.is_nul DQUOTE].
    change (C.is_nul DQUOTE) with false. cbv iota.
    rewrite Hskip, cstr_clean_then_rest by assumption.
    now apply find_char_app. }
  assert (Hread : C.read json (i + C.strlen key) (length value) = value).
  { unfold C.read. rewrite Hskip, <- !app_assoc, firstn_app, firstn_all, Nat.sub_diag.
    cbn [firstn]. apply app_nil_r. }
  split.
  - unfold alif_json_parser. rewrite Hfind, Hchr.
    replace (out_size <? length value + 1) with false
      by (symmetry; apply Nat.ltb_ge; lia).
    rewrite alif_json_parser_writes by assumption. now rewrite Hread.
  - replace (out_size - length value) with (S (out_size - S (length value))) by lia.
    cbn [C.zeros repeat app]. now apply CFacts.cstr_clean_app_nul.
Qed.

Lemma alif_json_parser_value_witness :
  (strstr json_answer PROMPT_KEY = Some 20 /\
   skipn 20 (C.cstr json_answer)
   = C.cstr PROMPT_KEY ++ bytes "Hello" ++ DQUOTE :: bytes "}" /\
   length (bytes "Hello") < 16) /\
  alif_json_parser json_answer PROMPT_KEY (C.zeros 20) 16
  = (0%Z, bytes "Hello" ++ C.zeros (16 - length (bytes "Hello"))
            ++ skipn 16 (C.zeros 20)) /\
  C.cstr (bytes "Hello" ++ C.zeros (16 - length (bytes "Hello"))
            ++ skipn 16 (C.zeros 20)) = bytes "Hello".
Proof.
  split; [repeat split; by_computation|].
  apply (alif_json_parser_value json_answer PROMPT_KEY
           (C.zeros 20) 16 20 (bytes "Hello") (bytes "}"));
    [reflexivity | reflexivity | repeat constructor | cbn; lia].
Defined.

(* ================================================================== *)
(** ** The shell commands *)
(* ================================================================== *)

(** X23. The shell's response handler never asks the transport to stop (it
    returns 0 on every event), writes nothing of the context but
    [status_code], and after a run of events [status_code] is the status of
    the last one. *)
Theorem http_response_handler_run_status rsps : forall ctx,
  let '(rs, ctx', _) := http_response_handler_run rsps ctx in
  Forall (fun r => r = 0%Z) rs /\
  length rs = length rsps /\
  status_code ctx' = last (map http_status_code rsps) (status_code ctx) /\
  set_status_code ctx' (status_code ctx) = ctx.
Proof.
  induction rsps as [|rsp rsps IH]; intros ctx.
  - cbn. repeat split; [constructor | destruct ctx; reflexivity].
  - cbn [http_response_handler_run].
    assert (Hh : exists o, http_response_handler rsp ctx
                           = (0%Z, set_status_code ctx (http_status_code rsp), o)).
    { unfold http_response_handler.
      destruct (status_code (set_status_code ctx (http_status_code rsp)) =? 0)%Z;
        [|destruct (0 <? body_frag_len rsp)]; eexists; reflexivity. }
    destruct Hh as [o Hh]. rewrite Hh.
    specialize (IH (set_status_code ctx (http_status_code rsp))).
    destruct (http_response_handler_run rsps
                (set_status_code ctx (http_status_code rsp))) as [[rs ctx'] os].
    destruct IH as (H0 & Hl & Hs & Hf).
    repeat split.
    + now constructor.
    + cbn [length]. now rewrite Hl.
    + cbn [map]. rewrite last_cons. exact Hs.
    + destruct ctx, ctx'. cbn in Hf |- *. inversion Hf; subst. reflexivity.
Qed.

Lemma requests_connect_keeps {A} (f : requests_ctx -> A) cfg h ctx t :
  (forall c x, f (set_sockfd c x) = f c) ->
  (forall c a, f (set_sa c a) = f c) ->
  f (snd (fst (requests_connect cfg h ctx t))) = f ctx.
Proof.
  intros Hfd Hsa. run_c.
  destruct (CONFIG_NET_SOCKETS_SOCKOPT_TLS cfg);
    destruct (is_ssl_verifyhost ctx); destruct (is_ssl_verifypeer ctx);
    case_conditions; cbn [fst snd]; rewrite ?Hfd, ?Hsa, ?Hfd; reflexivity.
Qed.

(** X24. [requests post <url> <body>], when [requests_init] has succeeded and
    the connection is made: one exchange, a POST to the parsed host and uri,
    with protocol "HTTP/1.1", the shell's handler, and as payload the body
    argument cut to the size of the payload buffer less one; the command
    returns what the transport returned when that is negative, 0
    otherwise. *)
Theorem cmd_requests_post_exchange cfg parse nh h argv st r ctx st' :
  0 < NET_IPV4_MTU cfg ->
  3 <= length argv ->
  requests_init cfg parse nh st (nth 1 argv []) = (Returned r ctx, st') ->
  (0 <= r)%Z ->
  let ctx2 :=
    requests_setopts ctx
      [setopt REQUESTS_PROTOCOL (bytes "HTTP/1.1");
       setopt REQUESTS_WRITEFUNCTION HTTP_RESPONSE_HANDLER;
       setopt REQUESTS_POSTFIELDS (nth 2 argv [])] in
  (0 <= answer h (sys_socket (socket_proto cfg)))%Z ->
  (0 <= fst (fst (requests_connect cfg h ctx2 [])))%Z ->
  exists out t req,
    cmd_requests_post cfg parse nh h argv st
    = CmdReturned (Z.min 0 (answer h (sys_http_client_req
                                        (sockfd (snd (fst (requests_connect cfg h ctx2 []))))
                                        req)))
        out st' t /\
    http_requests t = [req] /\
    req_method req = HTTP_POST /\
    req_host req = hostname (url_fields ctx) /\
    req_url req = uri (url_fields ctx) /\
    C.cstr (req_protocol req) = bytes "HTTP/1.1" /\
    req_response req = Some HTTP_RESPONSE_HANDLER /\
    option_map C.cstr (req_payload req)
    = Some (firstn (NET_IPV4_MTU cfg - 1) (C.cstr (nth 2 argv []))) /\
    req_payload_len req = NET_IPV4_MTU cfg.
Proof.
  intros Hpos Hargc Hinit Hr ctx2 Hfd Hconn.
  pose proof (requests_init_buffers_ok _ _ _ _ _ _ _ _ Hinit) as [[Hpl Hpn] [Hql Hqn]].
  pose proof (requests_hands_build_request cfg h ctx2 HTTP_POST Hfd Hconn) as Hreq.
  set (ctx3 := snd (fst (requests_connect cfg h ctx2 []))) in *.
  assert (Hk : forall {A} (f : requests_ctx -> A),
             (forall c x, f (set_sockfd c x) = f c) ->
             (forall c a, f (set_sa c a) = f c) -> f ctx3 = f ctx2).
  { intros A f H1 H2. apply requests_connect_keeps; assumption. }
  assert (Hret : exists rr,
             requests cfg h (Some ctx2) HTTP_POST []
             = ((answer h (sys_http_client_req (sockfd ctx3)
                             (build_request ctx3 HTTP_POST)), rr),
                snd (requests cfg h (Some ctx2) HTTP_POST []))).
  { clear -Hfd Hconn. subst ctx3. revert Hfd Hconn. unfold socket_proto. run_c.
    destruct (CONFIG_NET_SOCKETS_SOCKOPT_TLS cfg);
      destruct (is_ssl_verifyhost ctx2); destruct (is_ssl_verifypeer ctx2);
      case_conditions; cbn in *; intros; try lia; eexists; reflexivity. }
  destruct Hret as [rr Hret].
  unfold cmd_requests_post, cmd_requests.
  replace (length argv <? 3) with false by (symmetry; apply Nat.ltb_ge; lia).
  rewrite Hinit.
  replace (r <? 0)%Z with false by (symmetry; apply Z.ltb_ge; lia).
  change (requests_setopt
            (requests_setopt
               (requests_setopt ctx REQUESTS_PROTOCOL (bytes "HTTP/1.1"))
               REQUESTS_WRITEFUNCTION HTTP_RESPONSE_HANDLER)
            REQUESTS_POSTFIELDS (nth 2 argv [])) with ctx2.
  rewrite Hret.
  set (ret := answer h (sys_http_client_req (sockfd ctx3) (build_request ctx3 HTTP_POST))).
  assert (Hfields :
    req_host (build_request ctx3 HTTP_POST) = hostname (url_fields ctx) /\
    req_url (build_request ctx3 HTTP_POST) = uri (url_fields ctx) /\
    C.cstr (req_protocol (build_request ctx3 HTTP_POST)) = bytes "HTTP/1.1" /\
    req_response (build_request ctx3 HTTP_POST) = Some HTTP_RESPONSE_HANDLER /\
    option_map C.cstr (req_payload (build_request ctx3 HTTP_POST))
    = Some (firstn (NET_IPV4_MTU cfg - 1) (C.cstr (nth 2 argv []))) /\
    req_payload_len (build_request ctx3 HTTP_POST) = NET_IPV4_MTU cfg).
  { cbn [build_request carries_body req_host req_url req_protocol req_response
         req_payload req_payload_len option_map].
    rewrite (Hk _ url_fields (fun _ _ => eq_refl) (fun _ _ => eq_refl)).
    rewrite (Hk _ protocol (fun _ _ => eq_refl) (fun _ _ => eq_refl)).
    rewrite (Hk _ cb (fun _ _ => eq_refl) (fun _ _ => eq_refl)).
    rewrite (Hk _ payload (fun _ _ => eq_refl) (fun _ _ => eq_refl)).
    subst ctx2.
    cbn [requests_setopts fold_left setopt projT1 projT2 requests_setopt
         set_protocol set_cb set_payload url_fields protocol cb payload].
    repeat split.
    - rewrite CFacts.strncpy_cstr;
        [rewrite Hql; reflexivity
        | rewrite Hql; unfold PROTOCOL_LEN; lia
        | rewrite Hql; exact Hqn].
    - f_equal.
      rewrite CFacts.strncpy_cstr;
        [now rewrite Hpl | rewrite Hpl; exact Hpos | rewrite Hpl; exact Hpn].
    - now rewrite CFacts.strncpy_length. }
  destruct (Z.ltb_spec ret 0) as [Hneg|Hnn].
  - eexists. eexists. exists (build_request ctx3 HTTP_POST). fold ret.
    split; [rewrite Z.min_r by lia; reflexivity|].
    split; [exact Hreq | split; [reflexivity | exact Hfields]].
  - eexists. eexists. exists (build_request ctx3 HTTP_POST). fold ret.
    split; [rewrite Z.min_l by lia; reflexivity|].
    split; [exact Hreq | split; [reflexivity | exact Hfields]].
Qed.

Lemma cmd_requests_post_exchange_witness :
  (0 < NET_IPV4_MTU cfg_http /\
   requests_init cfg_http (fun _ => (0%Z, purl_http_example))
     (net_up [result_of addr_a; alldone]) statics_init url_http_example
   = (Returned 0 (set_sa ctx_example_com addr_a), statics_init)) /\
  exists out t req,
    cmd_requests_post cfg_http (fun _ => (0%Z, purl_http_example))
      (net_up [result_of addr_a; alldone]) host_ok
      [bytes "post"; url_http_example; bytes "hello"] statics_init
    = CmdReturned
        (Z.min 0 (answer host_ok
                    (sys_http_client_req
                       (sockfd (snd (fst (requests_connect cfg_http host_ok
                          (requests_setopts (set_sa ctx_example_com addr_a)
                             [setopt REQUESTS_PROTOCOL (bytes "HTTP/1.1");
                              setopt REQUESTS_WRITEFUNCTION HTTP_RESPONSE_HANDLER;
                              setopt REQUESTS_POSTFIELDS (bytes "hello")]) []))))
                       req)))
        out statics_init t /\
    http_requests t = [req] /\
    req_method req = HTTP_POST /\
    req_host req = hostname (url_fields (set_sa ctx_example_com addr_a)) /\
    req_url req = uri (url_fields (set_sa ctx_example_com addr_a)) /\
    C.cstr (req_protocol req) = bytes "HTTP/1.1" /\
    req_response req = Some HTTP_RESPONSE_HANDLER /\
    option_map C.cstr (req_payload req)
    = Some (firstn (NET_IPV4_MTU cfg_http - 1) (C.cstr (bytes "hello"))) /\
    req_payload_len req = NET_IPV4_MTU cfg_http.
Proof.
  assert (Hpos : 0 < NET_IPV4_MTU cfg_http) by (cbn; lia).
  assert (Hinit : requests_init cfg_http (fun _ => (0%Z, purl_http_example))
                    (net_up [result_of addr_a; alldone]) statics_init url_http_example
                  = (Returned 0 (set_sa ctx_example_com addr_a), statics_init))
    by (vm_compute; reflexivity).
  split; [split; assumption|].
  apply (cmd_requests_post_exchange cfg_http (fun _ => (0%Z, purl_http_example))
           (net_up [result_of addr_a; alldone]) host_ok
           [bytes "post"; url_http_example; bytes "hello"] statics_init
           0%Z (set_sa ctx_example_com addr_a) statics_init);
    [exact Hpos | cbn; lia | exact Hinit | lia | cbn; lia | cbn; lia].
Defined.
